(** * smolagents memory core: steps, records and message reconstruction

    A shallow embedding of [src/smolagents/memory.py]: the step classes
    ([ActionStep], [PlanningStep], [TaskStep], [SystemPromptStep],
    [CriticStep]), their [dict()] and [to_messages()] operations, the
    run-time extension [patch_action_step] that wraps [ActionStep.__init__]
    and [ActionStep.to_messages], and [AgentMemory].

    Python values are a first-order datatype, exceptions are an explicit
    result type, and the two method slots of the [ActionStep] class that the
    extension reassigns are a record that [patch_action_step] transforms. *)

From Stdlib Require Import String Ascii List ZArith Bool Lia DecimalString.
Import ListNotations.
Local Open Scope string_scope.
Set Warnings "-register-all".

(* ===================================================================== *)
(** ** Exceptions *)
(* ===================================================================== *)

Inductive PyExc : Type :=
| TypeError
| IndexError
| AttributeError
| NotImplementedError.

Inductive Result (A : Type) : Type :=
| Ok (a : A)
| Raise (e : PyExc).
Arguments Ok {A} a.
Arguments Raise {A} e.

Definition bind {A B : Type} (r : Result A) (k : A -> Result B) : Result B :=
  match r with
  | Ok a => k a
  | Raise e => Raise e
  end.

Notation "x <- r ;; k" := (bind r (fun x => k))
  (at level 61, r at next level, right associativity).

Fixpoint mapM {A B : Type} (f : A -> Result B) (l : list A) : Result (list B) :=
  match l with
  | [] => Ok []
  | x :: xs => y <- f x ;; ys <- mapM f xs ;; Ok (y :: ys)
  end.

(* ===================================================================== *)
(** ** Strings *)
(* ===================================================================== *)

Definition chr (n : nat) : string := String (ascii_of_nat n) EmptyString.

(** The line feed written [\n] in the source. *)
Definition LF : string := chr 10.

Fixpoint join (sep : string) (l : list string) : string :=
  match l with
  | [] => ""
  | [s] => s
  | s :: rest => s ++ sep ++ join sep rest
  end.

(** [s[:n]] *)
Fixpoint str_take (n : nat) (s : string) : string :=
  match n, s with
  | O, _ => ""
  | _, EmptyString => ""
  | S n', String c r => String c (str_take n' r)
  end.

(** [ch.isspace()] on the code points below 256. *)
Definition is_space (c : ascii) : bool :=
  let n := nat_of_ascii c in
  ((9 <=? n)%nat && (n <=? 13)%nat) || ((28 <=? n)%nat && (n <=? 32)%nat)
  || (n =? 133)%nat || (n =? 160)%nat.

Fixpoint lstrip (s : string) : string :=
  match s with
  | EmptyString => ""
  | String c r => if is_space c then lstrip r else s
  end.

Fixpoint rstrip (s : string) : string :=
  match s with
  | EmptyString => ""
  | String c r =>
      match rstrip r with
      | EmptyString => if is_space c then "" else String c ""
      | r' => String c r'
      end
  end.

(** [s.strip()] *)
Definition strip (s : string) : string := rstrip (lstrip s).

Fixpoint str_mem (c : ascii) (s : string) : bool :=
  match s with
  | EmptyString => false
  | String d r => Ascii.eqb c d || str_mem c r
  end.

Definition hex_digit (n : nat) : string :=
  match n with
  | O => "0" | 1 => "1" | 2 => "2" | 3 => "3" | 4 => "4" | 5 => "5"
  | 6 => "6" | 7 => "7" | 8 => "8" | 9 => "9" | 10 => "a" | 11 => "b"
  | 12 => "c" | 13 => "d" | 14 => "e" | _ => "f"
  end.

Definition backslash : ascii := ascii_of_nat 92.
Definition squote : ascii := ascii_of_nat 39.
Definition dquote : ascii := ascii_of_nat 34.

(** One character of [repr(str)], [q] being the quote chosen for the
    whole string. *)
Definition repr_char (q : ascii) (c : ascii) : string :=
  let n := nat_of_ascii c in
  if Ascii.eqb c q || Ascii.eqb c backslash then String backslash (String c "")
  else if (n =? 9)%nat then String backslash "t"
  else if (n =? 10)%nat then String backslash "n"
  else if (n =? 13)%nat then String backslash "r"
  else if (n <? 32)%nat || ((127 <=? n)%nat && (n <=? 160)%nat) || (n =? 173)%nat
       then String backslash ("x" ++ hex_digit (n / 16) ++ hex_digit (n mod 16))
  else String c "".

Fixpoint repr_chars (q : ascii) (s : string) : string :=
  match s with
  | EmptyString => ""
  | String c r => repr_char q c ++ repr_chars q r
  end.

(** [repr(s)] for a [str]: single quotes unless the text holds a single
    quote and no double quote. *)
Definition repr_str (s : string) : string :=
  let q := if str_mem squote s && negb (str_mem dquote s) then dquote else squote in
  String q (repr_chars q s ++ String q "").

Definition repr_int (z : Z) : string := NilZero.string_of_int (Z.to_int z).

(* ===================================================================== *)
(** ** Python values *)
(* ===================================================================== *)

(** A [float] is carried by its shortest [repr] (which identifies it); the
    program only stores floats and passes them on. [PObj] is an instance of
    a class with no JSON form (its [text] is what [str()] prints), [PData]
    an instance of a dataclass with its fields in declaration order,
    [PUncopyable] an object that [copy.deepcopy] refuses with [TypeError] (a
    lock, an open file, a generator), which has no JSON form either.
    Mapping keys are strings. *)
Inductive pyval : Type :=
| PNone
| PBool (b : bool)
| PInt (z : Z)
| PFloat (lit : string)
| PStr (s : string)
| PList (l : list pyval)
| PDict (d : list (string * pyval))
| PObj (cls : string) (text : string)
| PData (cls : string) (fields : list (string * pyval))
| PUncopyable (cls : string) (text : string).

Definition pydict : Type := list (string * pyval).
Definition pyfloat : Type := string.

Definition opt_val {A : Type} (f : A -> pyval) (o : option A) : pyval :=
  match o with
  | Some a => f a
  | None => PNone
  end.

(** [bool(v)] *)
Definition py_truthy (v : pyval) : bool :=
  match v with
  | PNone => false
  | PBool b => b
  | PInt z => negb (Z.eqb z 0)
  | PFloat lit => negb (String.eqb lit "0.0" || String.eqb lit "-0.0")
  | PStr s => negb (String.eqb s "")
  | PList l => match l with [] => false | _ => true end
  | PDict d => match d with [] => false | _ => true end
  | PObj _ _ => true
  | PData _ _ => true
  | PUncopyable _ _ => true
  end.

(** [repr(v)]; [str()] of a list or of a dict is its [repr]. *)
Fixpoint py_repr (v : pyval) : string :=
  match v with
  | PNone => "None"
  | PBool true => "True"
  | PBool false => "False"
  | PInt z => repr_int z
  | PFloat lit => lit
  | PStr s => repr_str s
  | PList l => "[" ++ join ", " (map py_repr l) ++ "]"
  | PDict d =>
      "{" ++ join ", " (map (fun kv => repr_str (fst kv) ++ ": " ++ py_repr (snd kv)) d) ++ "}"
  | PObj _ text => text
  | PData cls fs =>
      cls ++ "(" ++ join ", " (map (fun kv => fst kv ++ "=" ++ py_repr (snd kv)) fs) ++ ")"
  | PUncopyable _ text => text
  end.

(** [dataclasses.asdict]'s inner walk: dataclass instances become
    mappings, containers are rebuilt, and everything else goes through
    [copy.deepcopy], which raises [TypeError] on an object it cannot copy. *)
Fixpoint asdict_inner (v : pyval) : Result pyval :=
  match v with
  | PList l =>
      l' <- (fix walk (l : list pyval) : Result (list pyval) :=
               match l with
               | [] => Ok []
               | x :: r => x' <- asdict_inner x ;; r' <- walk r ;; Ok (x' :: r')
               end) l ;;
      Ok (PList l')
  | PDict d =>
      d' <- (fix walk (d : list (string * pyval)) : Result (list (string * pyval)) :=
               match d with
               | [] => Ok []
               | kv :: r =>
                   x' <- asdict_inner (snd kv) ;; r' <- walk r ;; Ok ((fst kv, x') :: r')
               end) d ;;
      Ok (PDict d')
  | PData _ fs =>
      d' <- (fix walk (d : list (string * pyval)) : Result (list (string * pyval)) :=
               match d with
               | [] => Ok []
               | kv :: r =>
                   x' <- asdict_inner (snd kv) ;; r' <- walk r ;; Ok ((fst kv, x') :: r')
               end) fs ;;
      Ok (PDict d')
  | PUncopyable _ _ => Raise TypeError
  | _ => Ok v
  end.

(** Modelled from the spec: [make_json_serializable] of [smolagents.utils],
    which is not part of the sources at hand. The spec (4.1): it walks
    mappings and sequences recursively, preserving structure, and puts
    [<not serializable>] for any leaf with no JSON representation. *)
Fixpoint make_json_serializable (v : pyval) : pyval :=
  match v with
  | PList l => PList (map make_json_serializable l)
  | PDict d => PDict (map (fun kv => (fst kv, make_json_serializable (snd kv))) d)
  | PObj _ _ => PStr "<not serializable>"
  | PData _ _ => PStr "<not serializable>"
  | PUncopyable _ _ => PStr "<not serializable>"
  | _ => v
  end.

(* ===================================================================== *)
(** ** JSON documents *)
(* ===================================================================== *)

Inductive json : Type :=
| JNull
| JBool (b : bool)
| JInt (z : Z)
| JFloat (lit : string)
| JStr (s : string)
| JArr (l : list json)
| JObj (d : list (string * json)).

Fixpoint sequence {A : Type} (l : list (option A)) : option (list A) :=
  match l with
  | [] => Some []
  | None :: _ => None
  | Some a :: r => option_map (cons a) (sequence r)
  end.

Definition keyed {A : Type} (k : string) (o : option A) : option (string * A) :=
  option_map (pair k) o.

(** [json.dumps] up to the document it writes; [None] is the [TypeError]
    ("Object of type ... is not JSON serializable") of the default encoder. *)
Fixpoint json_encode (v : pyval) : option json :=
  match v with
  | PNone => Some JNull
  | PBool b => Some (JBool b)
  | PInt z => Some (JInt z)
  | PFloat lit => Some (JFloat lit)
  | PStr s => Some (JStr s)
  | PList l => option_map JArr (sequence (map json_encode l))
  | PDict d =>
      option_map JObj (sequence (map (fun kv => keyed (fst kv) (json_encode (snd kv))) d))
  | PObj _ _ => None
  | PData _ _ => None
  | PUncopyable _ _ => None
  end.

(** [json.loads] from the document. *)
Fixpoint json_decode (j : json) : pyval :=
  match j with
  | JNull => PNone
  | JBool b => PBool b
  | JInt z => PInt z
  | JFloat lit => PFloat lit
  | JStr s => PStr s
  | JArr l => PList (map json_decode l)
  | JObj d => PDict (map (fun kv => (fst kv, json_decode (snd kv))) d)
  end.

(** [json.loads(json.dumps(v))] *)
Definition json_roundtrip (v : pyval) : option pyval :=
  option_map json_decode (json_encode v).

(** [l.append(x)] and [l.extend(l')] as values. *)
Definition append {A : Type} (l : list A) (x : A) : list A := (l ++ [x])%list.
Definition extend {A : Type} (l l' : list A) : list A := (l ++ l')%list.

(** Records as insertion-ordered association lists. *)
Definition keys {A : Type} (d : list (string * A)) : list string := map fst d.

Fixpoint lookup {A : Type} (k : string) (d : list (string * A)) : option A :=
  match d with
  | [] => None
  | (k', v) :: r => if String.eqb k k' then Some v else lookup k r
  end.

(* ===================================================================== *)
(** ** Messages *)
(* ===================================================================== *)

(** Modelled from the spec: [MessageRole] of [smolagents.models], which is
    not part of the sources at hand. The spec (3) lists its members. *)
Inductive MessageRole : Type :=
| SYSTEM
| USER
| ASSISTANT
| TOOL_RESPONSE.

(** The value under ["role"]: the base steps store a [MessageRole] member,
    [CriticStep] stores a plain string. *)
Inductive Role : Type :=
| RoleOf (r : MessageRole)
| RoleStr (s : string).

(** One element of a content list: [{"type": "text", "text": t}] or
    [{"type": "image", "image": i}]. *)
Inductive ContentPart : Type :=
| TextPart (text : string)
| ImagePart (image : pyval).

(** The value under ["content"]: a string, a list of parts, or the raw
    list of input messages. *)
Inductive Content : Type :=
| ContentStr (s : string)
| ContentParts (parts : list ContentPart)
| ContentRaw (messages : list pyval).

Record Message : Type := mkMessage {
  role : Role;
  content : Content
}.

(* ===================================================================== *)
(** ** ToolCall and AgentError *)
(* ===================================================================== *)

Record ToolCall : Type := mkToolCall {
  name : string;
  arguments : pyval;
  id : string
}.

Definition ToolCall_dict (tc : ToolCall) : pyval :=
  PDict [("id", PStr (id tc));
         ("type", PStr "function");
         ("function", PDict [("name", PStr (name tc));
                             ("arguments", make_json_serializable (arguments tc))])].

(** Modelled from the spec: [AgentError] of [smolagents.utils], which is
    not part of the sources at hand. The spec (6): an error type with a
    string form and a record export; both are carried as data. *)
Record AgentError : Type := mkAgentError {
  error_str : string;
  error_dict : pyval
}.

(* ===================================================================== *)
(** ** CriticStep *)
(* ===================================================================== *)

Record CriticStep : Type := mkCriticStep {
  critic_start_time : pyfloat;
  critic_end_time : option pyfloat;
  critic_duration : option pyfloat;
  critic_model_input_messages : list pyval;
  critic_model_output_message : option pyval;
  feedback : string;
  accepted : bool
}.

(** [CriticStep.__init__]; [now] is what [time.time()] returns. *)
Definition CriticStep_init (now : pyfloat)
    (start_time end_time duration : option pyfloat)
    (model_input_messages : option (list pyval))
    (model_output_message : option pyval)
    (feedback : string) (accepted : bool) : CriticStep :=
  {| critic_start_time := match start_time with Some t => t | None => now end;
     critic_end_time := end_time;
     critic_duration := duration;
     critic_model_input_messages :=
       match model_input_messages with Some l => l | None => [] end;
     critic_model_output_message := model_output_message;
     feedback := feedback;
     accepted := accepted |}.

(** [bool(x)] for an attribute that may be [None]. *)
Definition opt_truthy (o : option pyval) : bool :=
  match o with
  | Some v => py_truthy v
  | None => false
  end.

Definition CriticStep_to_messages (self : CriticStep) (summary_mode : bool)
    : list Message :=
  if summary_mode then
    let status := if accepted self then "ACCEPTED" else "REJECTED" in
    [ {| role := RoleStr "assistant";
         content := ContentStr
           ("[Critic " ++ status ++ "] "
            ++ (if (200 <? String.length (feedback self))%nat
                then str_take 200 (feedback self) ++ "..."
                else feedback self)) |} ]
  else
    let messages : list Message := [] in
    if opt_truthy (critic_model_output_message self) then
      append messages ({| role := RoleStr "assistant";
                       content := ContentStr ("[Critic Review] " ++ feedback self) |})
    else messages.

(* ===================================================================== *)
(** ** ActionStep *)
(* ===================================================================== *)

(** The twelve dataclass fields. *)
Record ActionStepFields : Type := mkActionStepFields {
  model_input_messages : option (list pyval);
  tool_calls : option (list ToolCall);
  start_time : option pyfloat;
  end_time : option pyfloat;
  step_number : option Z;
  error : option AgentError;
  duration : option pyfloat;
  model_output_message : option pyval;
  model_output : option string;
  observations : option string;
  observations_images : option (list pyval);
  action_output : pyval
}.

(** An instance: the fields, and the attribute [critic_steps], which the
    instance has ([Some]) or lacks ([None], what [hasattr] tests). *)
Record ActionStep : Type := mkActionStep {
  fields :> ActionStepFields;
  critic_steps : option (list CriticStep)
}.

Definition ActionStep_dict (self : ActionStep) : pydict :=
  [ ("model_input_messages", opt_val PList (model_input_messages self));
    ("tool_calls",
       match tool_calls self with
       | Some (tc :: tcs) => PList (map ToolCall_dict (tc :: tcs))
       | _ => PList []
       end);
    ("start_time", opt_val PFloat (start_time self));
    ("end_time", opt_val PFloat (end_time self));
    ("step", opt_val PInt (step_number self));
    ("error", match error self with Some e => error_dict e | None => PNone end);
    ("duration", opt_val PFloat (duration self));
    ("model_output_message", opt_val (fun v => v) (model_output_message self));
    ("model_output", opt_val PStr (model_output self));
    ("observations", opt_val PStr (observations self));
    ("action_output", make_json_serializable (action_output self)) ].

(* ===================================================================== *)
(** ** Calls *)
(* ===================================================================== *)

(** The arguments of a call besides [self]: [to_messages(True)] has one
    positional argument, [to_messages(summary_mode=True)] one keyword. *)
Record CallArgs : Type := mkCall {
  positional : list bool;
  keywords : list (string * bool)
}.

Definition no_args : CallArgs := mkCall [] [].

Fixpoint str_in (k : string) (l : list string) : bool :=
  match l with
  | [] => false
  | k' :: r => String.eqb k k' || str_in k r
  end.

Fixpoint assign (k : string) (v : bool) (env : list (string * bool))
    : list (string * bool) :=
  match env with
  | [] => []
  | (k', v') :: r => if String.eqb k k' then (k', v) :: r else (k', v') :: assign k v r
  end.

(** Positional arguments take the parameters in order. *)
Fixpoint bind_positional (params : list (string * bool)) (pos : list bool)
    : Result (list (string * bool)) :=
  match pos, params with
  | [], _ => Ok params
  | _ :: _, [] => Raise TypeError
  | v :: pos', (p, _) :: params' =>
      rest <- bind_positional params' pos' ;; Ok ((p, v) :: rest)
  end.

(** A keyword must name a parameter that has no value yet. *)
Fixpoint bind_keywords (bound : list string) (env : list (string * bool))
    (kws : list (string * bool)) : Result (list (string * bool)) :=
  match kws with
  | [] => Ok env
  | (k, v) :: kws' =>
      if negb (str_in k (map fst env)) then Raise TypeError
      else if str_in k bound then Raise TypeError
      else bind_keywords (k :: bound) (assign k v env) kws'
  end.

(** Python's binding of a call to a signature whose parameters all have
    defaults ([params] lists them with their defaults). *)
Definition bind_args (params : list (string * bool)) (call : CallArgs)
    : Result (list (string * bool)) :=
  env <- bind_positional params (positional call) ;;
  bind_keywords (map fst (firstn (length (positional call)) params)) env (keywords call).

Definition arg (k : string) (env : list (string * bool)) : bool :=
  match lookup k env with
  | Some v => v
  | None => false
  end.

(* ===================================================================== *)
(** ** ActionStep.to_messages *)
(* ===================================================================== *)

(** [self.tool_calls[0]] *)
Definition first_tool_call (self : ActionStep) : Result ToolCall :=
  match tool_calls self with
  | None => Raise TypeError
  | Some [] => Raise IndexError
  | Some (tc :: _) => Ok tc
  end.

Definition retry_suffix : string :=
  LF ++ "Now let's retry: take care not to repeat previous errors! If you have retried several times, try a completely different approach." ++ LF.

Definition text_message (r : MessageRole) (text : string) : Message :=
  {| role := RoleOf r; content := ContentParts [TextPart text] |}.

(** The body of [ActionStep.to_messages], with its parameters bound. *)
Definition ActionStep_to_messages_body (self : ActionStep)
    (summary_mode show_model_input_messages : bool) : Result (list Message) :=
  let messages : list Message := [] in
  let messages :=
    match model_input_messages self with
    | Some input =>
        if show_model_input_messages
        then append messages ({| role := RoleOf SYSTEM; content := ContentRaw input |})
        else messages
    | None => messages
    end in
  let messages :=
    match model_output self with
    | Some output =>
        if negb summary_mode
        then append messages (text_message ASSISTANT (strip output))
        else messages
    | None => messages
    end in
  let messages :=
    match tool_calls self with
    | Some tcs =>
        append messages (text_message ASSISTANT
                        ("Calling tools:" ++ LF ++ py_repr (PList (map ToolCall_dict tcs))))
    | None => messages
    end in
  messages <-
    match observations self with
    | Some obs =>
        tc <- first_tool_call self ;;
        Ok (append messages (text_message TOOL_RESPONSE
                            ("Call id: " ++ id tc ++ LF ++ "Observation:" ++ LF ++ obs)))
    | None => Ok messages
    end ;;
  let messages :=
    match error self with
    | Some err =>
        let error_message := "Error:" ++ LF ++ error_str err ++ retry_suffix in
        let message_content :=
          match tool_calls self with
          | Some (tc :: _) => "Call id: " ++ id tc ++ LF
          | _ => ""
          end in
        let message_content := message_content ++ error_message in
        append messages (text_message TOOL_RESPONSE message_content)
    | None => messages
    end in
  let messages :=
    match observations_images self with
    | Some (image :: images) =>
        append messages ({| role := RoleOf USER;
                         content := ContentParts
                           ([TextPart "Here are the observed images:"]
                            ++ map ImagePart (image :: images))%list |})
    | _ => messages
    end in
  Ok messages.

(** [ActionStep.to_messages(self, summary_mode=False,
    show_model_input_messages=False)] as the class body defines it. *)
Definition ActionStep_to_messages (self : ActionStep) (call : CallArgs)
    : Result (list Message) :=
  env <- bind_args [("summary_mode", false); ("show_model_input_messages", false)] call ;;
  ActionStep_to_messages_body self
    (arg "summary_mode" env) (arg "show_model_input_messages" env).

(** The generated [__init__] of the dataclass: it sets the twelve fields
    and nothing else. *)
Definition ActionStep_init (args : ActionStepFields) : ActionStep :=
  {| fields := args; critic_steps := None |}.

(* ===================================================================== *)
(** ** The critic-step extension *)
(* ===================================================================== *)

(** The two attributes of the class [ActionStep] that
    [patch_action_step] reads and reassigns. *)
Record ActionStepClass : Type := mkClass {
  init_method : ActionStepFields -> ActionStep;
  to_messages_method : ActionStep -> CallArgs -> Result (list Message)
}.

(** The class as its [class] statement leaves it. *)
Definition ActionStep_class : ActionStepClass :=
  {| init_method := ActionStep_init; to_messages_method := ActionStep_to_messages |}.

Definition init_with_critic_steps
    (original_init : ActionStepFields -> ActionStep)
    (args : ActionStepFields) : ActionStep :=
  let self := original_init args in
  match critic_steps self with
  | None => {| fields := fields self; critic_steps := Some [] |}
  | Some _ => self
  end.

Definition to_messages_with_critic_steps
    (original_to_messages : ActionStep -> CallArgs -> Result (list Message))
    (self : ActionStep) (call : CallArgs) : Result (list Message) :=
  env <- bind_args [("summary_mode", false)] call ;;
  let summary_mode := arg "summary_mode" env in
  messages <- original_to_messages self (mkCall [summary_mode] []) ;;
  match critic_steps self with
  | Some (c :: cs) =>
      Ok (fold_left
            (fun messages critic_step =>
               extend messages (CriticStep_to_messages critic_step summary_mode))
            (c :: cs) messages)
  | _ => Ok messages
  end.

Definition patch_action_step (cls : ActionStepClass) : ActionStepClass :=
  let original_init := init_method cls in
  let original_to_messages := to_messages_method cls in
  {| init_method := init_with_critic_steps original_init;
     to_messages_method := to_messages_with_critic_steps original_to_messages |}.

(** The class once the module is imported: the last statement of the
    module applies the patch. *)
Definition patched_action_step : ActionStepClass :=
  patch_action_step ActionStep_class.

(** The class after [n] calls of [patch_action_step]. *)
Definition installed (n : nat) : ActionStepClass :=
  Nat.iter n patch_action_step ActionStep_class.

(* ===================================================================== *)
(** ** The other step kinds *)
(* ===================================================================== *)

Record PlanningStep : Type := mkPlanningStep {
  planning_model_input_messages : list pyval;
  model_output_message_facts : pyval;
  facts : string;
  model_output_message_plan : pyval;
  plan : string
}.

Record TaskStep : Type := mkTaskStep {
  task : string;
  task_images : option (list pyval)
}.

Record SystemPromptStep : Type := mkSystemPromptStep {
  system_prompt_text : string
}.

Definition PlanningStep_to_messages (self : PlanningStep) (summary_mode : bool)
    : list Message :=
  let messages : list Message := [] in
  let messages :=
    append messages (text_message ASSISTANT ("[FACTS LIST]:" ++ LF ++ strip (facts self))) in
  if negb summary_mode
  then append messages (text_message ASSISTANT ("[PLAN]:" ++ LF ++ strip (plan self)))
  else messages.

Definition TaskStep_to_messages (self : TaskStep) : list Message :=
  let content := [TextPart ("New task:" ++ LF ++ task self)] in
  let content :=
    match task_images self with
    | Some (image :: images) => extend content (map ImagePart (image :: images))
    | _ => content
    end in
  [ {| role := RoleOf USER; content := ContentParts content |} ].

Definition SystemPromptStep_to_messages (self : SystemPromptStep) (summary_mode : bool)
    : list Message :=
  if summary_mode then []
  else [ text_message SYSTEM (strip (system_prompt_text self)) ].

Inductive Step : Type :=
| SAction (a : ActionStep)
| SPlanning (p : PlanningStep)
| STask (t : TaskStep)
| SSystemPrompt (s : SystemPromptStep)
| SCritic (c : CriticStep).

(* ===================================================================== *)
(** ** dict() *)
(* ===================================================================== *)

(** [fields(cls)] by name, in declaration order. [MemoryStep] declares
    none; a decorated subclass adds its own. [CriticStep] is not decorated
    with [@dataclass], so its fields are those it inherits. *)
Definition MemoryStep_fields : list string := [].
Definition PlanningStep_fields : list string :=
  (MemoryStep_fields
   ++ ["model_input_messages"; "model_output_message_facts"; "facts";
       "model_output_message_plan"; "plan"])%list.
Definition TaskStep_fields : list string :=
  (MemoryStep_fields ++ ["task"; "task_images"])%list.
Definition SystemPromptStep_fields : list string :=
  (MemoryStep_fields ++ ["system_prompt"])%list.
Definition CriticStep_fields : list string := MemoryStep_fields.

(** The attributes an instance holds. *)
Definition PlanningStep_attrs (p : PlanningStep) : pydict :=
  [ ("model_input_messages", PList (planning_model_input_messages p));
    ("model_output_message_facts", model_output_message_facts p);
    ("facts", PStr (facts p));
    ("model_output_message_plan", model_output_message_plan p);
    ("plan", PStr (plan p)) ].

Definition TaskStep_attrs (t : TaskStep) : pydict :=
  [ ("task", PStr (task t)); ("task_images", opt_val PList (task_images t)) ].

Definition SystemPromptStep_attrs (s : SystemPromptStep) : pydict :=
  [ ("system_prompt", PStr (system_prompt_text s)) ].

Definition CriticStep_attrs (c : CriticStep) : pydict :=
  [ ("start_time", PFloat (critic_start_time c));
    ("end_time", opt_val PFloat (critic_end_time c));
    ("duration", opt_val PFloat (critic_duration c));
    ("model_input_messages", PList (critic_model_input_messages c));
    ("model_output_message", opt_val (fun v => v) (critic_model_output_message c));
    ("feedback", PStr (feedback c));
    ("accepted", PBool (accepted c)) ].

Definition getattr (attrs : pydict) (k : string) : Result pyval :=
  match lookup k attrs with
  | Some v => Ok v
  | None => Raise AttributeError
  end.

(** [dataclasses.asdict(obj)]: one entry per declared field. *)
Definition asdict (declared : list string) (attrs : pydict) : Result pydict :=
  mapM (fun k => v <- getattr attrs k ;; v' <- asdict_inner v ;; Ok (k, v')) declared.

(** [step.dict()], by the class of the step: [ActionStep] overrides it,
    the others inherit [MemoryStep.dict]. *)
Definition Step_dict (s : Step) : Result pydict :=
  match s with
  | SAction a => Ok (ActionStep_dict a)
  | SPlanning p => asdict PlanningStep_fields (PlanningStep_attrs p)
  | STask t => asdict TaskStep_fields (TaskStep_attrs t)
  | SSystemPrompt sp => asdict SystemPromptStep_fields (SystemPromptStep_attrs sp)
  | SCritic c => asdict CriticStep_fields (CriticStep_attrs c)
  end.

(* ===================================================================== *)
(** ** AgentMemory *)
(* ===================================================================== *)

Record AgentMemory : Type := mkAgentMemory {
  system_prompt : SystemPromptStep;
  steps : list Step
}.

Definition AgentMemory_init (prompt : string) : AgentMemory :=
  {| system_prompt := mkSystemPromptStep prompt; steps := [] |}.

Definition reset (self : AgentMemory) : AgentMemory :=
  {| system_prompt := system_prompt self; steps := [] |}.



Definition get_full_steps (self : AgentMemory) : Result (list pydict) :=
  mapM Step_dict (steps self).

(* ===================================================================== *)
(** ** Sample values *)
(* ===================================================================== *)

Definition sample_tool_call : ToolCall :=
  {| name := "search"; arguments := PDict [("query", PStr "rocq")]; id := "tc_1" |}.

Definition sample_accept : CriticStep :=
  CriticStep_init "1.5" None None None None None "looks right" true.

Definition sample_reject : CriticStep :=
  CriticStep_init "2.5" None None None None None "off by one" false.

Definition sample_step : ActionStep :=
  {| fields := {| model_input_messages := None;
                  tool_calls := Some [sample_tool_call];
                  start_time := Some "0.5"; end_time := None;
                  step_number := Some 1%Z; error := None; duration := None;
                  model_output_message := None;
                  model_output := Some " thinking ";
                  observations := Some "42";
                  observations_images := None;
                  action_output := PNone |};
     critic_steps := Some [sample_accept; sample_reject] |}.

Definition sample_input_message : pyval :=
  PDict [("role", PStr "user"); ("content", PStr "hello")].

(** [ActionStep(observations="42")], built by the patched constructor. *)
Definition step_observation_only : ActionStep :=
  init_method patched_action_step
    {| model_input_messages := None; tool_calls := None; start_time := None;
       end_time := None; step_number := None; error := None; duration := None;
       model_output_message := None; model_output := None;
       observations := Some "42"; observations_images := None;
       action_output := PNone |}.

(** [ActionStep(model_input_messages=[{"role": "user", "content": "hello"}])]. *)
Definition step_input_only : ActionStep :=
  init_method patched_action_step
    {| model_input_messages := Some [sample_input_message]; tool_calls := None;
       start_time := None; end_time := None; step_number := None; error := None;
       duration := None; model_output_message := None; model_output := None;
       observations := None; observations_images := None;
       action_output := PNone |}.

(** [ActionStep(error=AgentError("boom"), observations="42")]. *)
Definition step_error_and_observation : ActionStep :=
  init_method patched_action_step
    {| model_input_messages := None; tool_calls := None; start_time := None;
       end_time := None; step_number := None;
       error := Some {| error_str := "boom";
                        error_dict := PDict [("type", PStr "AgentError");
                                             ("message", PStr "boom")] |};
       duration := None; model_output_message := None; model_output := None;
       observations := Some "42"; observations_images := None;
       action_output := PNone |}.

(** The messages the critic steps of [self] contribute, in order. *)
Definition critic_messages (self : ActionStep) (summary_mode : bool) : list Message :=
  match critic_steps self with
  | Some cs => flat_map (fun c => CriticStep_to_messages c summary_mode) cs
  | None => []
  end.

(** The text a critic step shows in summary mode after its status tag. *)
Definition summary_feedback (c : CriticStep) : string :=
  if (200 <? String.length (feedback c))%nat
  then str_take 200 (feedback c) ++ "..."
  else feedback c.

Definition critic_message (text : string) : Message :=
  {| role := RoleStr "assistant"; content := ContentStr text |}.

Definition long_feedback : string :=
  String.concat "" (repeat "0123456789" 21).

Definition sample_long_critic : CriticStep :=
  CriticStep_init "1.5" None None None None
    (Some (PDict [("role", PStr "assistant")])) long_feedback false.

Definition error_text (self : ActionStep) (err : AgentError) : string :=
  match tool_calls self with
  | Some (tc :: _) => "Call id: " ++ id tc ++ LF
  | _ => ""
  end ++ "Error:" ++ LF ++ error_str err ++ retry_suffix.

Definition is_some {A : Type} (o : option A) : bool :=
  match o with
  | Some _ => true
  | None => false
  end.

(** [json.dumps(v)] does not raise. *)
Definition encodable (v : pyval) : bool := is_some (json_encode v).

(** The keys each class declares for its record: those of the literal in
    [ActionStep.dict], the dataclass fields of the other classes (none for
    [CriticStep], which is not a dataclass). *)
Definition record_keys (s : Step) : list string :=
  match s with
  | SAction _ =>
      ["model_input_messages"; "tool_calls"; "start_time"; "end_time"; "step";
       "error"; "duration"; "model_output_message"; "model_output";
       "observations"; "action_output"]
  | SPlanning _ =>
      ["model_input_messages"; "model_output_message_facts"; "facts";
       "model_output_message_plan"; "plan"]
  | STask _ => ["task"; "task_images"]
  | SSystemPrompt _ => ["system_prompt"]
  | SCritic _ => []
  end.

(** A chat message whose raw response object cannot be deep-copied. *)
Definition chat_message_with_raw_response : pyval :=
  PData "ChatMessage"
    [("role", PStr "assistant"); ("content", PStr "facts");
     ("raw", PUncopyable "Response" "<Response [200]>")].

(** [PlanningStep(model_input_messages=[], model_output_message_facts=<the
    message above>, facts="f", model_output_message_plan=<a plain chat
    message>, plan="p")]. *)
Definition planning_with_raw_response : PlanningStep :=
  {| planning_model_input_messages := [];
     model_output_message_facts := chat_message_with_raw_response;
     facts := "f";
     model_output_message_plan :=
       PData "ChatMessage" [("role", PStr "assistant"); ("content", PStr "plan")];
     plan := "p" |}.

(** The same planning step with plain chat messages only. *)
Definition planning_with_chat_messages : PlanningStep :=
  {| planning_model_input_messages := [sample_input_message];
     model_output_message_facts :=
       PData "ChatMessage" [("role", PStr "assistant"); ("content", PStr "facts")];
     facts := "f";
     model_output_message_plan :=
       PData "ChatMessage" [("role", PStr "assistant"); ("content", PStr "plan")];
     plan := "p" |}.

(** [ActionStep(model_output_message=ChatMessage(role="assistant",
    content="hi"))]. *)
Definition step_with_chat_message : ActionStep :=
  init_method patched_action_step
    {| model_input_messages := None; tool_calls := None; start_time := None;
       end_time := None; step_number := Some 1%Z; error := None; duration := None;
       model_output_message :=
         Some (PData "ChatMessage" [("role", PStr "assistant"); ("content", PStr "hi")]);
       model_output := Some "hi"; observations := None;
       observations_images := None; action_output := PNone |}.

(* ===================================================================== *)
(** ** More of memory.py *)
(* ===================================================================== *)

(** Whether [copy.deepcopy] gets through a value: it holds no object that
    cannot be copied. *)
Fixpoint copyable (v : pyval) : bool :=
  match v with
  | PList l => forallb copyable l
  | PDict d => forallb (fun kv => copyable (snd kv)) d
  | PData _ fs => forallb (fun kv => copyable (snd kv)) fs
  | PUncopyable _ _ => false
  | _ => true
  end.

(** Whether the field values that [dict()] copies can be copied. The
    record of an action step is built without copying, a critic step has
    no field to copy, a system prompt is a string. *)
Definition step_copyable (s : Step) : bool :=
  match s with
  | SAction _ => true
  | SPlanning p =>
      copyable (PList (planning_model_input_messages p))
      && copyable (model_output_message_facts p)
      && copyable (model_output_message_plan p)
  | STask t => copyable (opt_val PList (task_images t))
  | SSystemPrompt _ => true
  | SCritic _ => true
  end.

(** The memory holding the steps [l]. *)
Definition memory_of (m : AgentMemory) (l : list Step) : AgentMemory :=
  {| system_prompt := system_prompt m; steps := l |}.

(** [MemoryStep.to_messages]: the base class has no rendering. *)
Definition MemoryStep_to_messages : Result (list Message) :=
  Raise NotImplementedError.

(** [CriticStep.__str__] *)
Definition CriticStep_str (self : CriticStep) : string :=
  let status := if accepted self then "ACCEPTED" else "REJECTED" in
  "CriticStep(status=" ++ status ++ ", feedback="
  ++ (if (50 <? String.length (feedback self))%nat
      then str_take 50 (feedback self) ++ "..."
      else feedback self)
  ++ ")".

(** Whitespace at the ends of a text. *)
Fixpoint all_space (s : string) : bool :=
  match s with
  | EmptyString => true
  | String c r => is_space c && all_space r
  end.

Definition starts_with_space (s : string) : bool :=
  match s with
  | EmptyString => false
  | String c _ => is_space c
  end.

Fixpoint ends_with_space (s : string) : bool :=
  match s with
  | EmptyString => false
  | String c EmptyString => is_space c
  | String _ r => ends_with_space r
  end.

(** The roles [ActionStep.to_messages] emits, one per source that is set,
    in the order of its six blocks. *)
Definition expected_roles (self : ActionStep)
    (summary_mode show_model_input_messages : bool) : list Role :=
  ((match model_input_messages self with
    | Some _ => if show_model_input_messages then [RoleOf SYSTEM] else []
    | None => []
    end)
   ++ (match model_output self with
       | Some _ => if summary_mode then [] else [RoleOf ASSISTANT]
       | None => []
       end)
   ++ (match tool_calls self with Some _ => [RoleOf ASSISTANT] | None => [] end)
   ++ (match observations self with Some _ => [RoleOf TOOL_RESPONSE] | None => [] end)
   ++ (match error self with Some _ => [RoleOf TOOL_RESPONSE] | None => [] end)
   ++ (match observations_images self with
       | Some (_ :: _) => [RoleOf USER]
       | _ => []
       end))%list.

(** The same step with another [model_output]. *)
Definition with_model_output (self : ActionStep) (output : option string) : ActionStep :=
  {| fields :=
       {| model_input_messages := model_input_messages self;
          tool_calls := tool_calls self;
          start_time := start_time self;
          end_time := end_time self;
          step_number := step_number self;
          error := error self;
          duration := duration self;
          model_output_message := model_output_message self;
          model_output := output;
          observations := observations self;
          observations_images := observations_images self;
          action_output := action_output self |};
     critic_steps := critic_steps self |}.

(** The same step with other [tool_calls]. *)
Definition with_tool_calls (self : ActionStep) (tcs : option (list ToolCall)) : ActionStep :=
  {| fields :=
       {| model_input_messages := model_input_messages self;
          tool_calls := tcs;
          start_time := start_time self;
          end_time := end_time self;
          step_number := step_number self;
          error := error self;
          duration := duration self;
          model_output_message := model_output_message self;
          model_output := model_output self;
          observations := observations self;
          observations_images := observations_images self;
          action_output := action_output self |};
     critic_steps := critic_steps self |}.

(* ===================================================================== *)
(** ** monitoring.py: the logger *)
(* ===================================================================== *)

(** State and exceptions together: a raised exception keeps the state
    reached so far. *)
Definition Eff (S A : Type) : Type := S -> S * Result A.

Definition eret {S A : Type} (a : A) : Eff S A := fun s => (s, Ok a).

Definition eraise {S A : Type} (e : PyExc) : Eff S A := fun s => (s, Raise e).

Definition ebind {S A B : Type} (m : Eff S A) (k : A -> Eff S B) : Eff S B :=
  fun s =>
    match m s with
    | (s', Ok a) => k a s'
    | (s', Raise e) => (s', Raise e)
    end.

Definition elift {S A : Type} (r : Result A) : Eff S A := fun s => (s, r).

Notation "x <~ m ;; k" := (ebind m (fun x => k))
  (at level 61, m at next level, right associativity).
Notation "m ;;; k" := (ebind m (fun _ => k))
  (at level 61, right associativity).

Inductive LogLevel : Type :=
| ERROR
| INFO
| DEBUG.

Definition LogLevel_value (l : LogLevel) : Z :=
  match l with
  | ERROR => 0
  | INFO => 1
  | DEBUG => 2
  end.

(** What a caller passes for [level]: a member of [LogLevel], a plain
    integer, or a string. *)
Inductive LevelArg : Type :=
| LevelOf (l : LogLevel)
| LevelInt (z : Z)
| LevelStr (s : string).

(** [level.value]: only the members of the enumeration have it. *)
Definition level_value (level : LevelArg) : Result Z :=
  match level with
  | LevelOf l => Ok (LogLevel_value l)
  | LevelInt _ => Raise AttributeError
  | LevelStr _ => Raise AttributeError
  end.

(** What is handed to the console: a string, or the object a Rich
    constructor built from the arguments the code passes ([None] for an
    argument it leaves out). How the console renders them is not part of the
    model. *)
Inductive Renderable : Type :=
| RStr (s : string)
| RText (text : string) (style : string)
| RPanel (body : Renderable) (title subtitle border_style : option string)
| RRule (title : string)
| RSyntax (code : string) (lexer : string) (theme : option string) (word_wrap : bool)
| RMarkdown (markup : string).

Inductive ConsoleEvent : Type :=
| Printed (r : Renderable)
| Logged (r : Renderable).

Record AgentLogger : Type := mkLogger {
  level : Z;
  console : list ConsoleEvent
}.

(** [AgentLogger(level)] with a fresh console. *)
Definition AgentLogger_init (level : Z) : AgentLogger :=
  {| level := level; console := [] |}.

Definition console_print (r : Renderable) : Eff AgentLogger unit :=
  fun lg => ({| level := level lg; console := append (console lg) (Printed r) |}, Ok tt).

Definition console_log (r : Renderable) : Eff AgentLogger unit :=
  fun lg => ({| level := level lg; console := append (console lg) (Logged r) |}, Ok tt).

(** [bool(s)] for an optional string. *)
Definition str_truthy (o : option string) : bool :=
  match o with
  | Some s => negb (String.eqb s "")
  | None => false
  end.

Definition str_or_empty (o : option string) : string :=
  match o with
  | Some s => s
  | None => ""
  end.

Fixpoint str_prefix (p s : string) : bool :=
  match p, s with
  | EmptyString, _ => true
  | String a p', String b s' => Ascii.eqb a b && str_prefix p' s'
  | String _ _, EmptyString => false
  end.

(** [p in s] *)
Fixpoint str_contains (p s : string) : bool :=
  str_prefix p s
  || match s with
     | EmptyString => false
     | String _ r => str_contains p r
     end.

(** The level test every logging method starts with:
    [if level.value > self.level: return]. [true] when the method goes on. *)
Definition level_allows (level_arg : LevelArg) : Eff AgentLogger bool :=
  fun lg =>
    match level_value level_arg with
    | Ok v => (lg, Ok (negb (v >? level lg)%Z))
    | Raise e => (lg, Raise e)
    end.

Definition agent_title (agent_name : string) : string :=
  "[bold blue]Agent: " ++ agent_name ++ "[/bold blue]".

(** The attribute [title] of a renderable, for [hasattr(content, "title")]:
    Rich's Panel and Rule keep their title in it. *)
Definition title_attr (r : Renderable) : option (option string) :=
  match r with
  | RPanel _ title _ _ => Some title
  | RRule title => Some (Some title)
  | _ => None
  end.

(** [content.title = title] *)
Definition set_title (r : Renderable) (title : string) : Renderable :=
  match r with
  | RPanel body _ subtitle border_style => RPanel body (Some title) subtitle border_style
  | RRule _ => RRule title
  | _ => r
  end.

(** [AgentLogger.log(content, level, agent_name)], the second definition of
    that name in the class body, which is the one the class keeps. *)
Definition log (content : Renderable) (level_arg : LevelArg)
    (agent_name : option string) : Eff AgentLogger unit :=
  go <~ level_allows level_arg ;;
  if negb go then eret tt
  else
    let content :=
      if str_truthy agent_name then
        match content with
        | RStr text =>
            RPanel (RStr text) (Some (agent_title (str_or_empty agent_name))) None None
        | _ =>
            match title_attr content with
            | Some None => set_title content (agent_title (str_or_empty agent_name))
            | _ => content
            end
        end
      else content in
    console_print content.

(** [rich.markdown.Markdown(markup)] parses its argument when it is built:
    the parser takes a string and raises [TypeError] on anything else. *)
Definition Markdown (markup : option string) : Result Renderable :=
  match markup with
  | Some text => Ok (RMarkdown text)
  | None => Raise TypeError
  end.

(** The title of the panel in [log_markdown] and in [log_code]. *)
Definition panel_title (agent_name title : option string) : option string :=
  if str_truthy agent_name && str_truthy title
  then Some (agent_title (str_or_empty agent_name) ++ " - " ++ str_or_empty title)
  else if str_truthy agent_name then Some (agent_title (str_or_empty agent_name))
  else if str_truthy title then title
  else None.

Definition log_markdown (content : option string) (title : option string)
    (level_arg : LevelArg) (agent_name : option string) : Eff AgentLogger unit :=
  go <~ level_allows level_arg ;;
  if negb go then eret tt
  else
    let panel_title :=
      if str_truthy agent_name && str_truthy title
      then Some (agent_title (str_or_empty agent_name) ++ " - " ++ str_or_empty title)
      else if str_truthy agent_name then Some (agent_title (str_or_empty agent_name))
      else if str_truthy title then title
      else None in
    markdown <~ elift (Markdown content) ;;
    let panel := RPanel markdown panel_title None None in
    console_print panel.

Definition log_code (content : string) (title : option string)
    (level_arg : LevelArg) (agent_name : option string) : Eff AgentLogger unit :=
  go <~ level_allows level_arg ;;
  if negb go then eret tt
  else
    let panel_title :=
      if str_truthy agent_name && str_truthy title
      then Some (agent_title (str_or_empty agent_name) ++ " - " ++ str_or_empty title)
      else if str_truthy agent_name then Some (agent_title (str_or_empty agent_name))
      else if str_truthy title then title
      else None in
    let code := RSyntax content "python" None false in
    let panel := RPanel code panel_title None None in
    console_print panel.

(** The subtitle [log_task] ends up with. *)
Definition task_subtitle (agent_name subtitle : option string) : option string :=
  if str_truthy agent_name && str_truthy subtitle
     && negb (str_contains "Agent:" (str_or_empty subtitle))
  then Some ("Agent: " ++ str_or_empty agent_name ++ " - " ++ str_or_empty subtitle)
  else if str_truthy agent_name && negb (str_truthy subtitle)
  then Some ("Agent: " ++ str_or_empty agent_name)
  else subtitle.

Definition log_task (content : string) (subtitle : option string)
    (level_arg : LevelArg) (agent_name : option string) : Eff AgentLogger unit :=
  go <~ level_allows level_arg ;;
  if negb go then eret tt
  else
    let subtitle :=
      if str_truthy agent_name && str_truthy subtitle
         && negb (str_contains "Agent:" (str_or_empty subtitle))
      then Some ("Agent: " ++ str_or_empty agent_name ++ " - " ++ str_or_empty subtitle)
      else if str_truthy agent_name && negb (str_truthy subtitle)
      then Some ("Agent: " ++ str_or_empty agent_name)
      else subtitle in
    let panel := RPanel (RText content "black") (Some "Task") subtitle (Some "black") in
    console_print panel.

Definition log_rule (title : string) (level_arg : LevelArg)
    (agent_name : option string) : Eff AgentLogger unit :=
  go <~ level_allows level_arg ;;
  if negb go then eret tt
  else
    let title :=
      if str_truthy agent_name
      then str_or_empty agent_name ++ " Thoughts - " ++ title
      else title in
    console_print (RRule title).

(** [AgentLogger.log_messages(messages)]; [dumps] stands for
    [json.dumps(dict(message), indent=4)] on one message. Iterating [None]
    is a [TypeError]. *)
Definition log_messages (dumps : pyval -> Result string)
    (messages : option (list pyval)) : Eff AgentLogger unit :=
  match messages with
  | None => eraise TypeError
  | Some ms =>
      texts <~ elift (mapM dumps ms) ;;
      let messages_as_string := join LF texts in
      log (RSyntax messages_as_string "markdown" (Some "github-dark") true)
          (LevelOf INFO) None
  end.

(* ===================================================================== *)
(** ** monitoring.py: the monitor *)
(* ===================================================================== *)

(** The two attributes of the tracked model that the monitor reads: each
    is missing ([None]), set to [None] ([Some None]) or set to a count. *)
Record TrackedModel : Type := mkTrackedModel {
  last_input_token_count : option (option Z);
  last_output_token_count : option (option Z)
}.

(** A monitor: the totals are attributes that [__init__] creates only when
    the model has [last_input_token_count]. *)
Record Monitor : Type := mkMonitor {
  step_durations : list (option pyfloat);
  tracked_model : TrackedModel;
  logger : AgentLogger;
  total_input_token_count : option Z;
  total_output_token_count : option Z
}.

Definition Monitor_init (tracked_model : TrackedModel) (logger : AgentLogger) : Monitor :=
  let has_count :=
    match last_input_token_count tracked_model with
    | Some _ => true
    | None => false
    end in
  {| step_durations := [];
     tracked_model := tracked_model;
     logger := logger;
     total_input_token_count := if has_count then Some 0%Z else None;
     total_output_token_count := if has_count then Some 0%Z else None |}.

Definition attr {A : Type} (o : option A) : Result A :=
  match o with
  | Some a => Ok a
  | None => Raise AttributeError
  end.

Definition get_total_token_counts (self : Monitor) : Result pydict :=
  i <- attr (total_input_token_count self) ;;
  o <- attr (total_output_token_count self) ;;
  Ok [("input", PInt i); ("output", PInt o)].

Definition Monitor_reset (self : Monitor) : Monitor :=
  {| step_durations := [];
     tracked_model := tracked_model self;
     logger := logger self;
     total_input_token_count := Some 0%Z;
     total_output_token_count := Some 0%Z |}.

(** The model object is shared with whoever calls the model; this is the
    monitor seeing its new counts. *)
Definition with_tracked_model (self : Monitor) (m : TrackedModel) : Monitor :=
  {| step_durations := step_durations self;
     tracked_model := m;
     logger := logger self;
     total_input_token_count := total_input_token_count self;
     total_output_token_count := total_output_token_count self |}.

(** [step_log.duration]: action and critic steps have the attribute. *)
Definition Step_duration (s : Step) : Result (option pyfloat) :=
  match s with
  | SAction a => Ok (duration a)
  | SCritic c => Ok (critic_duration c)
  | _ => Raise AttributeError
  end.

(** [f"{n:,}"] for an integer. *)
Fixpoint group_thousands (first : bool) (digits : string) : string :=
  match digits with
  | EmptyString => ""
  | String c r =>
      (if negb first && (String.length digits mod 3 =? 0)%nat then "," else "")
      ++ String c (group_thousands false r)
  end.

Definition format_thousands (z : Z) : string :=
  (if (z <? 0)%Z then "-" else "") ++ group_thousands true (repr_int (Z.abs z)).

(** [x + y] for a count that may be [None]. *)
Definition add_count (total : Z) (count : option Z) : Result Z :=
  match count with
  | Some c => Ok (total + c)%Z
  | None => Raise TypeError
  end.

Definition set_step_durations (l : list (option pyfloat)) : Eff Monitor unit :=
  fun self =>
    ({| step_durations := l;
        tracked_model := tracked_model self;
        logger := logger self;
        total_input_token_count := total_input_token_count self;
        total_output_token_count := total_output_token_count self |}, Ok tt).

Definition set_total_input (z : Z) : Eff Monitor unit :=
  fun self =>
    ({| step_durations := step_durations self;
        tracked_model := tracked_model self;
        logger := logger self;
        total_input_token_count := Some z;
        total_output_token_count := total_output_token_count self |}, Ok tt).

Definition set_total_output (z : Z) : Eff Monitor unit :=
  fun self =>
    ({| step_durations := step_durations self;
        tracked_model := tracked_model self;
        logger := logger self;
        total_input_token_count := total_input_token_count self;
        total_output_token_count := Some z |}, Ok tt).

Definition read {A : Type} (f : Monitor -> A) : Eff Monitor A :=
  fun self => (self, Ok (f self)).

(** Run a logger method on the monitor's logger. *)
Definition on_logger {A : Type} (m : Eff AgentLogger A) : Eff Monitor A :=
  fun self =>
    let (lg, r) := m (logger self) in
    ({| step_durations := step_durations self;
        tracked_model := tracked_model self;
        logger := lg;
        total_input_token_count := total_input_token_count self;
        total_output_token_count := total_output_token_count self |}, r).

(** [Monitor.update_metrics(step_log)]; [format_2f] stands for the float
    format [{x:.2f}]. Formatting [None] that way is a [TypeError]. *)
Definition update_metrics (format_2f : pyfloat -> string) (step_log : Step)
    : Eff Monitor unit :=
  step_duration <~ elift (Step_duration step_log) ;;
  durations <~ read step_durations ;;
  set_step_durations (append durations step_duration) ;;;
  durations <~ read step_durations ;;
  seconds <~ elift (match step_duration with
                    | Some d => Ok (format_2f d)
                    | None => Raise TypeError
                    end) ;;
  let console_outputs :=
    "[Step " ++ repr_int (Z.of_nat (length durations) - 1) ++ ": Duration "
    ++ seconds ++ " seconds" in
  model <~ read tracked_model ;;
  console_outputs <~
    match last_input_token_count model with
    | Some (Some input_count) =>
        total <~ read total_input_token_count ;;
        total <~ elift (attr total) ;;
        set_total_input (total + input_count)%Z ;;;
        total <~ read total_output_token_count ;;
        total <~ elift (attr total) ;;
        output_count <~ elift (attr (last_output_token_count model)) ;;
        total <~ elift (add_count total output_count) ;;
        set_total_output total ;;;
        total_in <~ read total_input_token_count ;;
        total_out <~ read total_output_token_count ;;
        eret (console_outputs
              ++ "| Input tokens: " ++ format_thousands (match total_in with Some z => z | None => 0%Z end)
              ++ " | Output tokens: " ++ format_thousands (match total_out with Some z => z | None => 0%Z end))
    | _ => eret console_outputs
    end ;;
  let console_outputs := console_outputs ++ "]" in
  on_logger (log (RText console_outputs "dim") (LevelOf INFO) None).

(* ===================================================================== *)
(** ** AgentMemory.replay *)
(* ===================================================================== *)

(** [str(step.step_number)] *)
Definition str_of_step_number (n : option Z) : string :=
  match n with
  | Some z => repr_int z
  | None => "None"
  end.

(** The body of the loop of [replay], for one step. *)
Definition replay_step (dumps : pyval -> Result string) (detailed : bool) (step : Step)
    : Eff AgentLogger unit :=
  match step with
  | SSystemPrompt sp =>
      if detailed
      then log_markdown (Some (system_prompt_text sp)) (Some "System prompt")
             (LevelOf INFO) None
      else eret tt
  | STask t => log_task (task t) (Some "") (LevelInt 2) None
  | SAction a =>
      log_rule ("Step " ++ str_of_step_number (step_number a)) (LevelOf INFO) None ;;;
      (if detailed then log_messages dumps (model_input_messages a) else eret tt) ;;;
      log_markdown (model_output a) (Some "Agent output:") (LevelOf INFO) None
  | SPlanning p =>
      log_rule "Planning step" (LevelOf INFO) None ;;;
      (if detailed then log_messages dumps (Some (planning_model_input_messages p))
       else eret tt) ;;;
      log_markdown (Some (facts p ++ LF ++ plan p)) (Some "Agent output:")
        (LevelOf INFO) None
  | SCritic _ => eret tt
  end.

Fixpoint replay_steps (dumps : pyval -> Result string) (detailed : bool)
    (l : list Step) : Eff AgentLogger unit :=
  match l with
  | [] => eret tt
  | step :: rest => replay_step dumps detailed step ;;; replay_steps dumps detailed rest
  end.

(** [AgentMemory.replay(logger, detailed)] *)
Definition replay (dumps : pyval -> Result string) (self : AgentMemory)
    (detailed : bool) : Eff AgentLogger unit :=
  console_log (RStr "Replaying the agent's steps:") ;;;
  replay_steps dumps detailed (steps self).

(* ===================================================================== *)
(** ** Vocabulary for the statements about the logger *)
(* ===================================================================== *)

(** The logger after one more [console.print]. *)
Definition printed (lg : AgentLogger) (r : Renderable) : AgentLogger :=
  {| level := level lg; console := (console lg ++ [Printed r])%list |}.

(** A logging call made at level [l]: it does nothing when [l] is above the
    logger's level, and prints exactly one renderable otherwise. *)
Definition filtered_by_level (l : LogLevel) (lg : AgentLogger)
    (call : Eff AgentLogger unit) : Prop :=
  if (LogLevel_value l >? level lg)%Z
  then call lg = (lg, Ok tt)
  else exists r, call lg = (printed lg r, Ok tt).

(** The steps [replay] writes something for. *)
Definition is_replayed (s : Step) : bool :=
  match s with
  | SAction _ => true
  | SPlanning _ => true
  | _ => false
  end.

(** A run of the monitor: before each update the tracked model shows the
    counts of the model call just made. *)
Fixpoint monitor_run (format_2f : pyfloat -> string)
    (events : list (TrackedModel * Step)) : Eff Monitor unit :=
  match events with
  | [] => eret tt
  | (model, step) :: rest =>
      (fun self => update_metrics format_2f step (with_tracked_model self model)) ;;;
      monitor_run format_2f rest
  end.

Definition Zsum (l : list Z) : Z := fold_right Z.add 0%Z l.

Definition input_count_of (ev : TrackedModel * Step) : Z :=
  match last_input_token_count (fst ev) with
  | Some (Some i) => i
  | _ => 0%Z
  end.

Definition output_count_of (ev : TrackedModel * Step) : Z :=
  match last_output_token_count (fst ev) with
  | Some (Some o) => o
  | _ => 0%Z
  end.

Definition duration_of (ev : TrackedModel * Step) : option pyfloat :=
  match Step_duration (snd ev) with
  | Ok d => d
  | Raise _ => None
  end.

(** An update that finds a duration and both counts. *)
Definition complete_event (ev : TrackedModel * Step) : Prop :=
  exists d i o,
    Step_duration (snd ev) = Ok (Some d)
    /\ fst ev = {| last_input_token_count := Some (Some i);
                   last_output_token_count := Some (Some o) |}.

Definition sample_timed_step : Step :=
  SAction (with_model_output
             {| fields := {| model_input_messages := None; tool_calls := None;
                             start_time := Some "0.5"; end_time := Some "2.0";
                             step_number := Some 1%Z; error := None;
                             duration := Some "1.5"; model_output_message := None;
                             model_output := None; observations := None;
                             observations_images := None; action_output := PNone |};
                critic_steps := Some [] |} (Some "done")).

Definition sample_events : list (TrackedModel * Step) :=
  [ ({| last_input_token_count := Some (Some 1200%Z);
        last_output_token_count := Some (Some 34%Z) |}, sample_timed_step);
    ({| last_input_token_count := Some (Some 800%Z);
        last_output_token_count := Some (Some 66%Z) |}, sample_timed_step) ].

Definition sample_monitor : Monitor :=
  Monitor_init {| last_input_token_count := Some None; last_output_token_count := Some None |}
    (AgentLogger_init 1).

(** The steps a summary replay gets through: no task step, and action
    steps with a model output (without one, [None] is handed to
    [Markdown], which raises). *)
Definition replays_quietly (s : Step) : Prop :=
  match s with
  | STask _ => False
  | SAction a => model_output a <> None
  | _ => True
  end.

(* ===================================================================== *)
(** * Properties *)
(* ===================================================================== *)

(** ** Sanity checks of the Python primitives *)

Example repr_of_tool_calls :
  py_repr (PList [ToolCall_dict sample_tool_call])
  = "[{'id': 'tc_1', 'type': 'function', 'function': {'name': 'search', 'arguments': {'query': 'rocq'}}}]".
Proof. reflexivity. Qed.

Example repr_escapes_and_quotes :
  py_repr (PList [PStr ("a" ++ LF ++ "b"); PStr "it's"; PInt (-5); PBool true; PNone])
  = "['a" ++ String backslash "nb', " ++ String dquote "it's" ++ String dquote ", -5, True, None]".
Proof. reflexivity. Qed.

Example strip_both_ends : strip ("  a b " ++ LF) = "a b".
Proof. reflexivity. Qed.

Example bind_keyword_ok :
  bind_args [("summary_mode", false); ("show_model_input_messages", false)]
    (mkCall [] [("show_model_input_messages", true)])
  = Ok [("summary_mode", false); ("show_model_input_messages", true)].
Proof. reflexivity. Qed.

Example bind_unknown_keyword :
  bind_args [("summary_mode", false)] (mkCall [] [("show_model_input_messages", true)])
  = Raise TypeError.
Proof. reflexivity. Qed.

Example bind_too_many_positional :
  bind_args [("summary_mode", false)] (mkCall [false; true] []) = Raise TypeError.
Proof. reflexivity. Qed.

Example bind_twice_the_same :
  bind_args [("summary_mode", false)] (mkCall [true] [("summary_mode", true)])
  = Raise TypeError.
Proof. reflexivity. Qed.

Example sanitise_replaces_objects :
  make_json_serializable (PDict [("f", PObj "File" "<file>"); ("n", PList [PInt 1])])
  = PDict [("f", PStr "<not serializable>"); ("n", PList [PInt 1])].
Proof. reflexivity. Qed.

Example patched_init_adds_critic_steps :
  critic_steps (ActionStep_init (fields sample_step)) = None
  /\ critic_steps (init_method patched_action_step (fields sample_step)) = Some [].
Proof. split; reflexivity. Qed.

(** ** Strings *)

Lemma str_take_length (n : nat) (s : string) :
  n <= String.length s -> String.length (str_take n s) = n.
Proof.
  revert s; induction n as [|n IH]; intros s H.
  - reflexivity.
  - destruct s as [|c r]; simpl in *; [lia|].
    rewrite IH; [reflexivity | lia].
Qed.

Lemma str_take_prefix (n : nat) (s : string) :
  exists rest, s = str_take n s ++ rest.
Proof.
  revert s; induction n as [|n IH]; intros s.
  - exists s; reflexivity.
  - destruct s as [|c r].
    + exists ""; reflexivity.
    + destruct (IH r) as [rest E]. exists rest. simpl. now rewrite <- E.
Qed.

(** ** Results *)

Lemma Ok_inj {A : Type} (a b : A) : Ok a = Ok b -> a = b.
Proof. intros H; injection H; auto. Qed.

(** ** Induction over Python values *)

Section PyvalInduction.
Variable P : pyval -> Prop.
Hypothesis HNone : P PNone.
Hypothesis HBool : forall b, P (PBool b).
Hypothesis HInt : forall z, P (PInt z).
Hypothesis HFloat : forall lit, P (PFloat lit).
Hypothesis HStr : forall s, P (PStr s).
Hypothesis HList : forall l, Forall P l -> P (PList l).
Hypothesis HDict : forall d, Forall (fun kv => P (snd kv)) d -> P (PDict d).
Hypothesis HObj : forall cls text, P (PObj cls text).
Hypothesis HData : forall cls fs, Forall (fun kv => P (snd kv)) fs -> P (PData cls fs).
Hypothesis HUncopyable : forall cls text, P (PUncopyable cls text).

Fixpoint pyval_induction (v : pyval) : P v :=
  match v with
  | PNone => HNone
  | PBool b => HBool b
  | PInt z => HInt z
  | PFloat lit => HFloat lit
  | PStr s => HStr s
  | PList l =>
      HList l ((fix all (l : list pyval) : Forall P l :=
                  match l with
                  | [] => Forall_nil _
                  | x :: r => Forall_cons x (pyval_induction x) (all r)
                  end) l)
  | PDict d =>
      HDict d ((fix all (d : list (string * pyval)) : Forall (fun kv => P (snd kv)) d :=
                  match d with
                  | [] => Forall_nil _
                  | kv :: r => Forall_cons kv (pyval_induction (snd kv)) (all r)
                  end) d)
  | PObj cls text => HObj cls text
  | PData cls fs =>
      HData cls fs
        ((fix all (d : list (string * pyval)) : Forall (fun kv => P (snd kv)) d :=
            match d with
            | [] => Forall_nil _
            | kv :: r => Forall_cons kv (pyval_induction (snd kv)) (all r)
            end) fs)
  | PUncopyable cls text => HUncopyable cls text
  end.
End PyvalInduction.

(** ** dict(): when it returns *)



(** [mapM] over a list whose elements each return or raise [TypeError],
    as a test [c] tells. *)
Lemma mapM_by_test {A B : Type} (f : A -> Result B) (c : A -> bool) (l : list A) :
  Forall (fun x => if c x then exists y, f x = Ok y else f x = Raise TypeError) l ->
  if forallb c l then exists ys, mapM f l = Ok ys else mapM f l = Raise TypeError.
Proof.
  induction 1 as [|x xs Hx _ IH]; cbn [forallb mapM]; [eauto|].
  destruct (c x); cbn [andb].
  - destruct Hx as [y Ey]. rewrite Ey. cbn [bind].
    destruct (forallb c xs).
    + destruct IH as [ys Eys]. rewrite Eys. cbn [bind]. eauto.
    + now rewrite IH.
  - now rewrite Hx.
Qed.

Lemma asdict_inner_list (l : list pyval) :
  asdict_inner (PList l) = (l' <- mapM asdict_inner l ;; Ok (PList l')).
Proof.
  cbn [asdict_inner]. f_equal.
  induction l as [|x r IH]; [reflexivity|].
  cbn [mapM]. now rewrite IH.
Qed.

Lemma asdict_inner_dict (d : list (string * pyval)) :
  asdict_inner (PDict d)
  = (d' <- mapM (fun kv => x' <- asdict_inner (snd kv) ;; Ok (fst kv, x')) d ;;
     Ok (PDict d')).
Proof.
  cbn [asdict_inner]. f_equal.
  induction d as [|kv r IH]; [reflexivity|].
  cbn [mapM]. rewrite IH. destruct (asdict_inner (snd kv)); reflexivity.
Qed.

Lemma asdict_inner_data (cls : string) (fs : list (string * pyval)) :
  asdict_inner (PData cls fs)
  = (d' <- mapM (fun kv => x' <- asdict_inner (snd kv) ;; Ok (fst kv, x')) fs ;;
     Ok (PDict d')).
Proof.
  cbn [asdict_inner]. f_equal.
  induction fs as [|kv r IH]; [reflexivity|].
  cbn [mapM]. rewrite IH. destruct (asdict_inner (snd kv)); reflexivity.
Qed.

(** The walk returns exactly on the values that can be copied, and raises
    [TypeError] on the others. *)
Lemma asdict_inner_copyable (v : pyval) :
  if copyable v then exists v', asdict_inner v = Ok v'
  else asdict_inner v = Raise TypeError.
Proof.
  induction v using pyval_induction; try (cbn; eauto; fail).
  - rewrite asdict_inner_list. cbn [copyable].
    pose proof (mapM_by_test asdict_inner copyable l H) as M.
    destruct (forallb copyable l).
    + destruct M as [ys E]. rewrite E. cbn [bind]. eauto.
    + now rewrite M.
  - rewrite asdict_inner_dict. cbn [copyable].
    assert (H' : Forall (fun kv => if copyable (snd kv)
                                   then exists y, (x' <- asdict_inner (snd kv) ;; Ok (fst kv, x')) = Ok y
                                   else (x' <- asdict_inner (snd kv) ;; Ok (fst kv, x')) = Raise TypeError) d).
    { eapply Forall_impl; [|exact H]. intros kv Hkv. cbn beta in Hkv |- *.
      destruct (copyable (snd kv)).
      - destruct Hkv as [y E]. rewrite E. cbn [bind]. eauto.
      - now rewrite Hkv. }
    pose proof (mapM_by_test _ (fun kv => copyable (snd kv)) d H') as M.
    destruct (forallb (fun kv => copyable (snd kv)) d).
    + destruct M as [ys E]. rewrite E. cbn [bind]. eauto.
    + now rewrite M.
  - rewrite asdict_inner_data. cbn [copyable].
    assert (H' : Forall (fun kv => if copyable (snd kv)
                                   then exists y, (x' <- asdict_inner (snd kv) ;; Ok (fst kv, x')) = Ok y
                                   else (x' <- asdict_inner (snd kv) ;; Ok (fst kv, x')) = Raise TypeError) fs).
    { eapply Forall_impl; [|exact H]. intros kv Hkv. cbn beta in Hkv |- *.
      destruct (copyable (snd kv)).
      - destruct Hkv as [y E]. rewrite E. cbn [bind]. eauto.
      - now rewrite Hkv. }
    pose proof (mapM_by_test _ (fun kv => copyable (snd kv)) fs H') as M.
    destruct (forallb (fun kv => copyable (snd kv)) fs).
    + destruct M as [ys E]. rewrite E. cbn [bind]. eauto.
    + now rewrite M.
Qed.

(** [dict()] of the steps that inherit it, field by field. *)
Lemma Step_dict_task (t : TaskStep) :
  Step_dict (STask t)
  = (images <- asdict_inner (opt_val PList (task_images t)) ;;
     Ok [("task", PStr (task t)); ("task_images", images)]).
Proof.
  unfold Step_dict, asdict, TaskStep_fields, MemoryStep_fields, TaskStep_attrs.
  cbn -[asdict_inner].
  change (asdict_inner (PStr (task t))) with (Ok (PStr (task t))). cbn [bind].
  destruct (asdict_inner (opt_val PList (task_images t))); reflexivity.
Qed.

Lemma Step_dict_planning (p : PlanningStep) :
  Step_dict (SPlanning p)
  = (input <- asdict_inner (PList (planning_model_input_messages p)) ;;
     facts_message <- asdict_inner (model_output_message_facts p) ;;
     plan_message <- asdict_inner (model_output_message_plan p) ;;
     Ok [("model_input_messages", input);
         ("model_output_message_facts", facts_message);
         ("facts", PStr (facts p));
         ("model_output_message_plan", plan_message);
         ("plan", PStr (plan p))]).
Proof.
  unfold Step_dict, asdict, PlanningStep_fields, MemoryStep_fields, PlanningStep_attrs.
  cbn -[asdict_inner].
  change (asdict_inner (PStr (facts p))) with (Ok (PStr (facts p))).
  change (asdict_inner (PStr (plan p))) with (Ok (PStr (plan p))).
  destruct (asdict_inner (PList (planning_model_input_messages p))); cbn [bind];
    [|reflexivity].
  destruct (asdict_inner (model_output_message_facts p)); cbn [bind]; [|reflexivity].
  destruct (asdict_inner (model_output_message_plan p)); reflexivity.
Qed.

(** [dict()] returns exactly for the steps whose copied field values can
    be copied, and raises [TypeError] for the others. *)
Lemma Step_dict_outcome (s : Step) :
  if step_copyable s
  then exists d, Step_dict s = Ok d /\ keys d = record_keys s
  else Step_dict s = Raise TypeError.
Proof.
  destruct s as [a|p|t|sp|c]; cbn [step_copyable];
    try (eexists; split; reflexivity).
  - rewrite Step_dict_planning.
    pose proof (asdict_inner_copyable (PList (planning_model_input_messages p))) as H1.
    pose proof (asdict_inner_copyable (model_output_message_facts p)) as H2.
    pose proof (asdict_inner_copyable (model_output_message_plan p)) as H3.
    destruct (copyable (PList (planning_model_input_messages p)));
      [destruct H1 as [v1 E1]; rewrite E1 | now rewrite H1]; cbn [bind andb].
    destruct (copyable (model_output_message_facts p));
      [destruct H2 as [v2 E2]; rewrite E2 | now rewrite H2]; cbn [bind andb].
    destruct (copyable (model_output_message_plan p));
      [destruct H3 as [v3 E3]; rewrite E3 | now rewrite H3]; cbn [bind].
    eexists; split; reflexivity.
  - rewrite Step_dict_task.
    pose proof (asdict_inner_copyable (opt_val PList (task_images t))) as H1.
    destruct (copyable (opt_val PList (task_images t)));
      [destruct H1 as [v1 E1]; rewrite E1 | now rewrite H1]; cbn [bind].
    eexists; split; reflexivity.
Qed.

Lemma get_full_steps_returns (m : AgentMemory) :
  Forall (fun s => step_copyable s = true) (steps m) ->
  exists full, get_full_steps m = Ok full.
Proof.
  unfold get_full_steps. induction 1 as [|s r Hs _ [full E]]; cbn [mapM]; [eauto|].
  pose proof (Step_dict_outcome s) as H. rewrite Hs in H. destruct H as (d & Ed & _).
  rewrite Ed, E. cbn [bind]. eauto.
Qed.

(** ** The wrapper *)

Lemma fold_extend {A B : Type} (f : A -> list B) (l : list A) (acc : list B) :
  fold_left (fun messages x => extend messages (f x)) l acc
  = (acc ++ flat_map f l)%list.
Proof.
  revert acc; induction l as [|x xs IH]; intros acc; simpl.
  - now rewrite app_nil_r.
  - rewrite IH. unfold extend. now rewrite app_assoc.
Qed.

Lemma concat_repeat_snoc {A : Type} (x : list A) (n : nat) :
  (concat (repeat x n) ++ x = concat (repeat x (S n)))%list.
Proof.
  induction n as [|n IH]; cbn.
  - now rewrite app_nil_r.
  - rewrite <- app_assoc. cbn in IH. now rewrite IH.
Qed.

(** A patched [to_messages]: bind [summary_mode], call the previous
    implementation with it, append the critic messages. *)
Lemma wrapper_unfold (orig : ActionStep -> CallArgs -> Result (list Message))
    (self : ActionStep) (call : CallArgs) (sm : bool) :
  bind_args [("summary_mode", false)] call = Ok [("summary_mode", sm)] ->
  to_messages_with_critic_steps orig self call
  = (messages <- orig self (mkCall [sm] []) ;;
     Ok (messages ++ critic_messages self sm)%list).
Proof.
  intros E. unfold to_messages_with_critic_steps. rewrite E. cbn [bind].
  change (arg "summary_mode" [("summary_mode", sm)]) with sm.
  destruct (orig self (mkCall [sm] [])) as [msgs|e]; cbn [bind]; [|reflexivity].
  unfold critic_messages.
  destruct (critic_steps self) as [[|c cs]|].
  - cbn. now rewrite app_nil_r.
  - now rewrite fold_extend.
  - now rewrite app_nil_r.
Qed.

Lemma bind_one_positional (sm : bool) :
  bind_args [("summary_mode", false)] (mkCall [sm] []) = Ok [("summary_mode", sm)].
Proof. reflexivity. Qed.

(** Any number of installs passes [summary_mode] down and appends the
    critic messages once per install. *)
Lemma installed_to_messages (n : nat) (self : ActionStep) (sm : bool)
    (base : list Message) :
  ActionStep_to_messages self (mkCall [sm] []) = Ok base ->
  to_messages_method (installed n) self (mkCall [sm] [])
  = Ok (base ++ concat (repeat (critic_messages self sm) n))%list.
Proof.
  intros Hbase. induction n as [|n IH].
  - change (to_messages_method (installed 0)) with ActionStep_to_messages.
    rewrite Hbase. cbn. now rewrite app_nil_r.
  - change (installed (S n)) with (patch_action_step (installed n)).
    cbn [patch_action_step to_messages_method].
    rewrite (wrapper_unfold _ _ _ sm (bind_one_positional sm)).
    rewrite IH. cbn [bind]. f_equal.
    rewrite <- app_assoc. f_equal. apply concat_repeat_snoc.
Qed.

(** ** AgentMemory.reset *)

(** C7. For every memory, [reset()] leaves [steps] empty and
    [system_prompt] as it was, and [get_full_steps()] on the memory after
    the reset returns the empty list. *)
Theorem reset_clears_steps_keeps_prompt (m : AgentMemory) :
  steps (reset m) = []
  /\ system_prompt (reset m) = system_prompt m
  /\ get_full_steps (reset m) = Ok [].
Proof.
  repeat split.
Qed.

(** ** CriticStep.dict *)

(** C10. For every critic step, the inherited [dict()] returns the empty
    mapping: the fields [asdict] walks are those of [MemoryStep], of which
    there are none, although the instance holds feedback, verdict and
    timings as attributes. A memory dump shows an empty record for it, and
    the record of an action step has no entry for its critic steps. *)
Theorem critic_dict_is_empty (c : CriticStep) :
  Step_dict (SCritic c) = Ok []
  /\ lookup "feedback" (CriticStep_attrs c) = Some (PStr (feedback c))
  /\ lookup "accepted" (CriticStep_attrs c) = Some (PBool (accepted c))
  /\ lookup "start_time" (CriticStep_attrs c) = Some (PFloat (critic_start_time c))
  /\ (forall m tail, steps m = SCritic c :: tail ->
        get_full_steps m
        = (rest <- get_full_steps (memory_of m tail) ;; Ok ([] :: rest)))
  /\ (forall a : ActionStep, lookup "critic_steps" (ActionStep_dict a) = None).
Proof.
  repeat split.
  intros m tail Hm. unfold get_full_steps, memory_of. rewrite Hm. reflexivity.
Qed.

(** ** CriticStep.to_messages *)

(** C8. For a critic step whose feedback has more than 200 characters,
    summary mode gives exactly one assistant message: the tag
    [[Critic ACCEPTED]] or [[Critic REJECTED]] by the verdict, a space, the
    first 200 characters of the feedback, then three dots. Full mode gives
    the whole feedback after [[Critic Review]] when the model output
    message is set (truthy), and no message otherwise. *)
Theorem critic_to_messages_long_feedback (c : CriticStep) :
  200 < String.length (feedback c) ->
  CriticStep_to_messages c true
  = [ critic_message
        ("[Critic " ++ (if accepted c then "ACCEPTED" else "REJECTED") ++ "] "
         ++ str_take 200 (feedback c) ++ "...") ]
  /\ String.length (str_take 200 (feedback c)) = 200
  /\ (exists rest, feedback c = str_take 200 (feedback c) ++ rest)
  /\ CriticStep_to_messages c false
     = if opt_truthy (critic_model_output_message c)
       then [ critic_message ("[Critic Review] " ++ feedback c) ]
       else [].
Proof.
  intros Hlen. split; [|split; [|split]].
  - unfold CriticStep_to_messages.
    apply Nat.ltb_lt in Hlen. rewrite Hlen. reflexivity.
  - apply str_take_length. lia.
  - apply str_take_prefix.
  - unfold CriticStep_to_messages.
    destruct (opt_truthy (critic_model_output_message c)); reflexivity.
Qed.

Lemma critic_to_messages_long_feedback_witness :
  200 < String.length (feedback sample_long_critic)
  /\ CriticStep_to_messages sample_long_critic true
     = [ critic_message
           ("[Critic " ++ (if accepted sample_long_critic then "ACCEPTED" else "REJECTED")
            ++ "] " ++ str_take 200 (feedback sample_long_critic) ++ "...") ]
  /\ String.length (str_take 200 (feedback sample_long_critic)) = 200
  /\ (exists rest,
        feedback sample_long_critic = str_take 200 (feedback sample_long_critic) ++ rest)
  /\ CriticStep_to_messages sample_long_critic false
     = if opt_truthy (critic_model_output_message sample_long_critic)
       then [ critic_message ("[Critic Review] " ++ feedback sample_long_critic) ]
       else [].
Proof.
  split.
  - apply Nat.ltb_lt. reflexivity.
  - apply (critic_to_messages_long_feedback sample_long_critic).
    apply Nat.ltb_lt. reflexivity.
Defined.

(** ** ActionStep.to_messages: observations *)

(** Whenever [observations] is set and there is no first tool call, the
    base rendering raises, whatever the other fields are. *)
Lemma observations_need_a_tool_call (self : ActionStep) (obs : string)
    (summary_mode show : bool) :
  observations self = Some obs ->
  (tool_calls self = None
   -> ActionStep_to_messages_body self summary_mode show = Raise TypeError)
  /\ (tool_calls self = Some []
      -> ActionStep_to_messages_body self summary_mode show = Raise IndexError).
Proof.
  intros Hobs; split; intros Htc;
    unfold ActionStep_to_messages_body, first_tool_call;
    rewrite Hobs, Htc; reflexivity.
Qed.

(** C2. [ActionStep(observations="42").to_messages()], with [tool_calls]
    left at [None]: the observation text is formatted with
    [self.tool_calls[0].id], so the call raises [TypeError], as the class
    defines it and after the extension is installed; no message is
    returned. *)
Theorem observation_without_tool_calls_raises :
  tool_calls step_observation_only = None
  /\ observations step_observation_only = Some "42"
  /\ ActionStep_to_messages step_observation_only no_args = Raise TypeError
  /\ to_messages_method patched_action_step step_observation_only no_args
     = Raise TypeError.
Proof.
  repeat split.
Qed.

(** ** ActionStep.to_messages: the input-message echo *)

(** As the class defines it, [show_model_input_messages=True] puts a
    SYSTEM message holding the raw input messages first. *)
Lemma base_echoes_input_messages (self : ActionStep) (input : list pyval)
    (summary_mode : bool) (out : list Message) :
  model_input_messages self = Some input ->
  ActionStep_to_messages self (mkCall [summary_mode; true] []) = Ok out ->
  exists rest,
    out = {| role := RoleOf SYSTEM; content := ContentRaw input |} :: rest.
Proof.
  intros Hin. unfold ActionStep_to_messages.
  change (bind_args _ (mkCall [summary_mode; true] []))
    with (Ok [("summary_mode", summary_mode); ("show_model_input_messages", true)]).
  cbn [bind].
  change (arg "summary_mode" _) with summary_mode.
  change (arg "show_model_input_messages" _) with true.
  unfold ActionStep_to_messages_body, first_tool_call. rewrite Hin.
  destruct (model_output self), summary_mode, (tool_calls self) as [[|tc tcs]|],
    (observations self), (error self), (observations_images self) as [[|i im]|];
    cbn [bind append app]; intros E; try discriminate E;
    apply Ok_inj in E; rewrite <- E; eexists; reflexivity.
Qed.

(** C3. [ActionStep(model_input_messages=[m]).to_messages(
    show_model_input_messages=True)] once the module is imported: the
    installed replacement has the signature [(self, summary_mode=False)],
    so the keyword is refused with [TypeError], and so is a second
    positional argument. The class's own method, which the replacement
    wraps, returns the SYSTEM message with the raw list for the same call. *)
Theorem show_model_input_messages_refused_after_install :
  to_messages_method patched_action_step step_input_only
    (mkCall [] [("show_model_input_messages", true)]) = Raise TypeError
  /\ to_messages_method patched_action_step step_input_only
       (mkCall [false; true] []) = Raise TypeError
  /\ ActionStep_to_messages step_input_only
       (mkCall [] [("show_model_input_messages", true)])
     = Ok [ {| role := RoleOf SYSTEM; content := ContentRaw [sample_input_message] |} ].
Proof.
  repeat split.
Qed.

(** ** ActionStep.to_messages: errors *)

(** With [error] set, and [observations] unset or a first tool call at
    hand, the rendering returns, and holds one TOOL_RESPONSE message for
    the error: the call-id line when there is a tool call, the label
    [Error:], the error's string form and the retry advice. Only the
    message for the observed images can follow it. *)
Lemma error_is_rendered (self : ActionStep) (err : AgentError)
    (summary_mode show : bool) :
  error self = Some err ->
  (observations self = None \/ exists tc tcs, tool_calls self = Some (tc :: tcs)) ->
  exists before after,
    ActionStep_to_messages_body self summary_mode show
    = Ok (before ++ text_message TOOL_RESPONSE (error_text self err) :: after)%list
    /\ (after = [] \/ exists parts, after = [ {| role := RoleOf USER; content := parts |} ]).
Proof.
  intros Herr Hsafe.
  set (after :=
         match observations_images self with
         | Some (image :: images) =>
             [ {| role := RoleOf USER;
                  content := ContentParts
                    ([TextPart "Here are the observed images:"]
                     ++ map ImagePart (image :: images))%list |} ]
         | _ => []
         end).
  assert (Hafter : after = []
                   \/ exists parts, after = [ {| role := RoleOf USER; content := parts |} ]).
  { subst after. destruct (observations_images self) as [[|i im]|]; eauto. }
  assert (Himg : forall msgs : list Message,
    match observations_images self with
    | Some (image :: images) =>
        append (append msgs (text_message TOOL_RESPONSE (error_text self err)))
          {| role := RoleOf USER;
             content := ContentParts
               ([TextPart "Here are the observed images:"]
                ++ map ImagePart (image :: images))%list |}
    | _ => append msgs (text_message TOOL_RESPONSE (error_text self err))
    end = (msgs ++ text_message TOOL_RESPONSE (error_text self err) :: after)%list).
  { intros msgs. subst after. unfold append.
    destruct (observations_images self) as [[|i im]|];
      try reflexivity; now rewrite <- app_assoc. }
  unfold ActionStep_to_messages_body, first_tool_call.
  rewrite Herr. fold (error_text self err).
  destruct Hsafe as [Hobs | (tc & tcs & Htc)].
  - rewrite Hobs. cbn [bind]. rewrite Himg.
    eexists _, after; split; [reflexivity | exact Hafter].
  - destruct (observations self); rewrite Htc; cbn [bind]; rewrite Himg;
      eexists _, after; (split; [reflexivity | exact Hafter]).
Qed.

(** C9. [ActionStep(error=AgentError("boom"), observations="42")], with
    [tool_calls] left at [None]: the observation is formatted with
    [self.tool_calls[0].id] before the error is reached, so the call raises
    [TypeError] and the error is not rendered. *)
Theorem error_with_observation_and_no_tool_call_raises :
  (exists err, error step_error_and_observation = Some err)
  /\ tool_calls step_error_and_observation = None
  /\ observations step_error_and_observation = Some "42"
  /\ ActionStep_to_messages step_error_and_observation no_args = Raise TypeError
  /\ to_messages_method patched_action_step step_error_and_observation no_args
     = Raise TypeError.
Proof.
  split; [eexists; reflexivity | repeat split].
Qed.

(** ** The extension, installed once or several times *)

Lemma critic_summary_message (c : CriticStep) :
  CriticStep_to_messages c true
  = [ critic_message
        ("[Critic " ++ (if accepted c then "ACCEPTED" else "REJECTED") ++ "] "
         ++ summary_feedback c) ].
Proof. reflexivity. Qed.

Lemma length_concat_repeat {A : Type} (x : list A) (n : nat) :
  length (concat (repeat x n)) = n * length x.
Proof.
  induction n as [|n IH]; cbn; [reflexivity|].
  now rewrite length_app, IH.
Qed.

(** Two installs (the one on import and one more call) on the sample
    step: four critic messages follow the base messages, not two. *)
Lemma two_installs_append_four_critic_messages :
  exists base,
    ActionStep_to_messages sample_step (mkCall [true] []) = Ok base
    /\ to_messages_method (patch_action_step (patch_action_step ActionStep_class))
         sample_step (mkCall [true] [])
       = Ok (base ++ [ critic_message "[Critic ACCEPTED] looks right";
                       critic_message "[Critic REJECTED] off by one";
                       critic_message "[Critic ACCEPTED] looks right";
                       critic_message "[Critic REJECTED] off by one" ])%list
    /\ to_messages_method (patch_action_step (patch_action_step ActionStep_class))
         sample_step (mkCall [true] [])
       <> Ok (base ++ [ critic_message "[Critic ACCEPTED] looks right";
                        critic_message "[Critic REJECTED] off by one" ])%list.
Proof.
  eexists. split; [reflexivity|]. split; [reflexivity|].
  intros E. vm_compute in E. discriminate E.
Qed.

(** C1 (amended). Installing is cumulative: each [patch_action_step] wraps
    the implementation it finds and calls through to it, so after [k >= 1]
    installs a summary rendering of a step with two critic steps is the
    base messages followed by [k] copies of the two critic messages, that
    is [2 * k] appended messages: two after one install, four after two. *)
Theorem installs_stack_critic_messages (k : nat) (self : ActionStep)
    (c1 c2 : CriticStep) (call : CallArgs) (base : list Message) :
  bind_args [("summary_mode", false)] call = Ok [("summary_mode", true)] ->
  critic_steps self = Some [c1; c2] ->
  ActionStep_to_messages self (mkCall [true] []) = Ok base ->
  exists appended,
    to_messages_method (installed (S k)) self call = Ok (base ++ appended)%list
    /\ appended
       = concat (repeat (CriticStep_to_messages c1 true ++ CriticStep_to_messages c2 true)%list
                        (S k))
    /\ length appended = 2 * S k.
Proof.
  intros Hcall Hcs Hbase.
  assert (Hcm : critic_messages self true
                = (CriticStep_to_messages c1 true ++ CriticStep_to_messages c2 true)%list).
  { unfold critic_messages. rewrite Hcs. cbn [flat_map]. now rewrite app_nil_r. }
  eexists; split; [|split; [reflexivity|]].
  - change (installed (S k)) with (patch_action_step (installed k)).
    cbn [patch_action_step to_messages_method].
    rewrite (wrapper_unfold _ _ _ true Hcall).
    rewrite (installed_to_messages k self true base Hbase). cbn [bind].
    rewrite <- app_assoc, concat_repeat_snoc, Hcm. reflexivity.
  - rewrite length_concat_repeat. cbn [length app CriticStep_to_messages]. lia.
Qed.

Lemma installs_stack_critic_messages_witness :
  exists appended,
    to_messages_method (installed 2) sample_step (mkCall [] [("summary_mode", true)])
    = Ok ([ text_message ASSISTANT
              ("Calling tools:" ++ LF ++ py_repr (PList [ToolCall_dict sample_tool_call]));
            text_message TOOL_RESPONSE
              ("Call id: tc_1" ++ LF ++ "Observation:" ++ LF ++ "42") ]
          ++ appended)%list
    /\ appended
       = concat (repeat (CriticStep_to_messages sample_accept true
                         ++ CriticStep_to_messages sample_reject true)%list 2)
    /\ length appended = 2 * 2.
Proof.
  apply (installs_stack_critic_messages 1 sample_step sample_accept sample_reject
           (mkCall [] [("summary_mode", true)])); reflexivity.
Defined.

(** ** Order of the rendered messages *)

(** The sample step in summary mode after the install on import: four
    messages, the model output not among them. *)
Lemma summary_mode_drops_model_output :
  model_output sample_step = Some " thinking "
  /\ to_messages_method patched_action_step sample_step
       (mkCall [] [("summary_mode", true)])
     = Ok [ text_message ASSISTANT
              ("Calling tools:" ++ LF ++ py_repr (PList [ToolCall_dict sample_tool_call]));
            text_message TOOL_RESPONSE
              ("Call id: tc_1" ++ LF ++ "Observation:" ++ LF ++ "42");
            critic_message "[Critic ACCEPTED] looks right";
            critic_message "[Critic REJECTED] off by one" ]
  /\ to_messages_method patched_action_step sample_step
       (mkCall [] [("summary_mode", true)])
     <> Ok [ text_message ASSISTANT "thinking";
             text_message ASSISTANT
               ("Calling tools:" ++ LF ++ py_repr (PList [ToolCall_dict sample_tool_call]));
             text_message TOOL_RESPONSE
               ("Call id: tc_1" ++ LF ++ "Observation:" ++ LF ++ "42");
             critic_message "[Critic ACCEPTED] looks right";
             critic_message "[Critic REJECTED] off by one" ].
Proof.
  split; [reflexivity|]. split; [reflexivity|].
  intros E. vm_compute in E. discriminate E.
Qed.

(** C4 (amended). After the install on import, for every step with
    [model_output] set, exactly one tool call, [observations] set, no error,
    no observation images and two critic steps, the first accepted and the
    second rejected, [to_messages(summary_mode=True)] yields exactly, in
    order: ASSISTANT (tool-call dump), TOOL_RESPONSE (observation),
    [[Critic ACCEPTED] ...], [[Critic REJECTED] ...]. Summary mode leaves
    the model output out; the critic messages come after the base messages,
    in the order of the critic steps. *)
Theorem summary_rendering_order (self : ActionStep) (output obs : string)
    (tc : ToolCall) (c1 c2 : CriticStep) (call : CallArgs) :
  bind_args [("summary_mode", false)] call = Ok [("summary_mode", true)] ->
  model_output self = Some output ->
  tool_calls self = Some [tc] ->
  observations self = Some obs ->
  error self = None ->
  observations_images self = None \/ observations_images self = Some [] ->
  critic_steps self = Some [c1; c2] ->
  accepted c1 = true ->
  accepted c2 = false ->
  to_messages_method patched_action_step self call
  = Ok [ text_message ASSISTANT
           ("Calling tools:" ++ LF ++ py_repr (PList [ToolCall_dict tc]));
         text_message TOOL_RESPONSE
           ("Call id: " ++ id tc ++ LF ++ "Observation:" ++ LF ++ obs);
         critic_message ("[Critic ACCEPTED] " ++ summary_feedback c1);
         critic_message ("[Critic REJECTED] " ++ summary_feedback c2) ].
Proof.
  intros Hcall Hout Htc Hobs Herr Himg Hcs Ha1 Ha2.
  unfold patched_action_step. cbn [patch_action_step to_messages_method ActionStep_class].
  rewrite (wrapper_unfold _ _ _ true Hcall).
  unfold critic_messages. rewrite Hcs. cbn [flat_map].
  rewrite !critic_summary_message, Ha1, Ha2.
  unfold ActionStep_to_messages.
  change (bind_args _ (mkCall [true] []))
    with (Ok [("summary_mode", true); ("show_model_input_messages", false)]).
  cbn [bind].
  change (arg "summary_mode" _) with true.
  change (arg "show_model_input_messages" _) with false.
  unfold ActionStep_to_messages_body, first_tool_call.
  rewrite Hout, Htc, Hobs, Herr.
  destruct (model_input_messages self);
    destruct Himg as [Himg | Himg]; rewrite Himg; reflexivity.
Qed.

Lemma summary_rendering_order_witness :
  to_messages_method patched_action_step sample_step (mkCall [true] [])
  = Ok [ text_message ASSISTANT
           ("Calling tools:" ++ LF ++ py_repr (PList [ToolCall_dict sample_tool_call]));
         text_message TOOL_RESPONSE
           ("Call id: " ++ id sample_tool_call ++ LF ++ "Observation:" ++ LF ++ "42");
         critic_message ("[Critic ACCEPTED] " ++ summary_feedback sample_accept);
         critic_message ("[Critic REJECTED] " ++ summary_feedback sample_reject) ].
Proof.
  apply (summary_rendering_order sample_step " thinking " "42" sample_tool_call
           sample_accept sample_reject (mkCall [true] []));
    try reflexivity.
  left; reflexivity.
Defined.

(** ** JSON *)


Lemma is_some_option_map {A B : Type} (f : A -> B) (o : option A) :
  is_some (option_map f o) = is_some o.
Proof. destruct o; reflexivity. Qed.

Lemma is_some_sequence {A : Type} (l : list (option A)) :
  is_some (sequence l) = forallb is_some l.
Proof.
  induction l as [|[a|] r IH]; cbn; try reflexivity.
  now rewrite is_some_option_map.
Qed.

Lemma encodable_list (l : list pyval) :
  encodable (PList l) = forallb encodable l.
Proof.
  unfold encodable at 1. cbn [json_encode].
  rewrite is_some_option_map, is_some_sequence.
  induction l as [|x r IH]; cbn; [reflexivity|]. now rewrite IH.
Qed.

Lemma encodable_dict (d : list (string * pyval)) :
  encodable (PDict d) = forallb (fun kv => encodable (snd kv)) d.
Proof.
  unfold encodable at 1. cbn [json_encode].
  rewrite is_some_option_map, is_some_sequence.
  induction d as [|x r IH]; cbn; [reflexivity|].
  rewrite IH. unfold keyed. now rewrite is_some_option_map.
Qed.

(** The sanitised value always has a JSON form. *)
Lemma make_json_serializable_encodable (v : pyval) :
  encodable (make_json_serializable v) = true.
Proof.
  induction v using pyval_induction; try reflexivity.
  - cbn [make_json_serializable]. rewrite encodable_list.
    induction H as [|x r Hx _ IH]; cbn; [reflexivity|]. now rewrite Hx, IH.
  - cbn [make_json_serializable]. rewrite encodable_dict.
    induction H as [|x r Hx _ IH]; cbn; [reflexivity|]. now rewrite Hx, IH.
Qed.

Lemma ToolCall_dict_encodable (tc : ToolCall) : encodable (ToolCall_dict tc) = true.
Proof.
  unfold ToolCall_dict. rewrite encodable_dict. cbn [forallb snd].
  rewrite encodable_dict. cbn [forallb snd].
  now rewrite make_json_serializable_encodable.
Qed.

(** Decoding what was encoded gives the value back. *)
Lemma json_decode_encode (v : pyval) :
  forall j, json_encode v = Some j -> json_decode j = v.
Proof.
  induction v using pyval_induction; intros j E; cbn in E;
    try (inversion E; subst; reflexivity); try discriminate.
  - destruct (sequence (map json_encode l)) as [js|] eqn:S; [|discriminate].
    inversion E; subst; clear E. cbn. f_equal.
    revert js S. induction H as [|x r Hx _ IH]; intros js S; cbn in S.
    + inversion S; reflexivity.
    + destruct (json_encode x) as [jx|]; [|discriminate].
      destruct (sequence (map json_encode r)) as [jr|]; [|discriminate].
      inversion S; subst. cbn. now rewrite (Hx jx eq_refl), (IH jr eq_refl).
  - destruct (sequence (map (fun kv => keyed (fst kv) (json_encode (snd kv))) d))
      as [js|] eqn:S; [|discriminate].
    inversion E; subst; clear E. cbn. f_equal.
    revert js S. induction H as [|[k x] r Hx _ IH]; intros js S; cbn in S.
    + inversion S; reflexivity.
    + cbn in Hx. destruct (json_encode x) as [jx|]; [|discriminate]. cbn in S.
      destruct (sequence (map (fun kv => keyed (fst kv) (json_encode (snd kv))) r))
        as [jr|]; [|discriminate].
      inversion S; subst. cbn. now rewrite (Hx jx eq_refl), (IH jr eq_refl).
Qed.

Lemma json_roundtrip_spec (v : pyval) :
  (json_roundtrip v = Some v <-> encodable v = true)
  /\ (forall v', json_roundtrip v = Some v' -> v' = v).
Proof.
  unfold json_roundtrip, encodable. split; [split|].
  - destruct (json_encode v); [reflexivity | discriminate].
  - destruct (json_encode v) as [j|] eqn:E; [|discriminate].
    intros _. cbn. now rewrite (json_decode_encode v j E).
  - intros v'. destruct (json_encode v) as [j|] eqn:E; [|discriminate].
    cbn. intros H; inversion H. now rewrite (json_decode_encode v j E).
Qed.

(** ** Records and JSON *)

(** Where the claim fails. An action step stores its model output message
    as it is, so the record [dict()] returns is one [json.dumps] refuses. A
    planning step goes through [dataclasses.asdict], which deep-copies: with
    a chat message whose raw response cannot be copied, [dict()] itself
    raises [TypeError]. *)
Lemma record_not_json_encodable :
  (exists d,
     Step_dict (SAction step_with_chat_message) = Ok d
     /\ lookup "model_output_message" d
        = Some (PData "ChatMessage" [("role", PStr "assistant"); ("content", PStr "hi")])
     /\ json_encode (PDict d) = None
     /\ json_roundtrip (PDict d) = None)
  /\ Step_dict (SPlanning planning_with_raw_response) = Raise TypeError.
Proof.
  split; [eexists; repeat split | reflexivity].
Qed.

(** [asdict] turns the chat messages of a planning step into mappings, so
    its record has a JSON form where the action step's has none. *)
Example planning_record_with_chat_messages :
  exists d,
    Step_dict (SPlanning planning_with_chat_messages) = Ok d
    /\ lookup "model_output_message_facts" d
       = Some (PDict [("role", PStr "assistant"); ("content", PStr "facts")])
    /\ json_roundtrip (PDict d) = Some (PDict d).
Proof.
  eexists; repeat split.
Qed.

Lemma tool_calls_entry_encodable (tcs : list ToolCall) :
  encodable (PList (map ToolCall_dict tcs)) = true.
Proof.
  rewrite encodable_list.
  induction tcs as [|tc r IH]; cbn; [reflexivity|].
  now rewrite ToolCall_dict_encodable, IH.
Qed.

Lemma opt_val_scalar_encodable {A : Type} (f : A -> pyval) (o : option A) :
  (forall a, encodable (f a) = true) -> encodable (opt_val f o) = true.
Proof. intros H; destruct o; [apply H | reflexivity]. Qed.

Lemma roundtrip_iff_encodable (d : pydict) :
  json_roundtrip (PDict d) = Some (PDict d)
  <-> forallb (fun kv => encodable (snd kv)) d = true.
Proof.
  destruct (json_roundtrip_spec (PDict d)) as [H _].
  now rewrite encodable_dict in H.
Qed.

(** C5 (amended). [dict()] returns without raising for every action step
    and every critic step, and for the other kinds exactly when the field
    values [dataclasses.asdict] has to deep-copy can be copied; it raises
    [TypeError] otherwise. A returned record has the keys the class fixes,
    and a JSON round trip, when it succeeds, gives the record back with
    every key. For an action step the entries [tool_calls] and
    [action_output] always have a JSON form, whatever the tool-call
    arguments and the action output are, and the record round-trips exactly
    when [model_input_messages], [model_output_message] and the error's
    record, which are stored as they are, have one. A system prompt record
    always round-trips; a task record exactly when the copied images have a
    JSON form; a planning record exactly when the copied input messages and
    the two copied chat messages have one. A critic record is empty. *)
Theorem dict_json_roundtrip (s : Step) :
  (if step_copyable s
   then exists d, Step_dict s = Ok d /\ keys d = record_keys s
   else Step_dict s = Raise TypeError)
  /\ (forall d v,
        Step_dict s = Ok d -> json_roundtrip (PDict d) = Some v ->
        v = PDict d /\ exists d', v = PDict d' /\ keys d' = record_keys s)
  /\ match s with
     | SAction a =>
         Step_dict s = Ok (ActionStep_dict a)
         /\ (exists t, lookup "tool_calls" (ActionStep_dict a) = Some t /\ encodable t = true)
         /\ (exists o, lookup "action_output" (ActionStep_dict a) = Some o
                       /\ encodable o = true)
         /\ (json_roundtrip (PDict (ActionStep_dict a)) = Some (PDict (ActionStep_dict a))
             <-> encodable (opt_val PList (model_input_messages a)) = true
                 /\ encodable (opt_val (fun v => v) (model_output_message a)) = true
                 /\ encodable (match error a with
                               | Some e => error_dict e
                               | None => PNone
                               end) = true)
     | SPlanning p =>
         forall d, Step_dict s = Ok d ->
           exists input facts_message plan_message,
             asdict_inner (PList (planning_model_input_messages p)) = Ok input
             /\ asdict_inner (model_output_message_facts p) = Ok facts_message
             /\ asdict_inner (model_output_message_plan p) = Ok plan_message
             /\ d = [("model_input_messages", input);
                     ("model_output_message_facts", facts_message);
                     ("facts", PStr (facts p));
                     ("model_output_message_plan", plan_message);
                     ("plan", PStr (plan p))]
             /\ (json_roundtrip (PDict d) = Some (PDict d)
                 <-> encodable input = true /\ encodable facts_message = true
                     /\ encodable plan_message = true)
     | STask t =>
         forall d, Step_dict s = Ok d ->
           exists images,
             asdict_inner (opt_val PList (task_images t)) = Ok images
             /\ d = [("task", PStr (task t)); ("task_images", images)]
             /\ (json_roundtrip (PDict d) = Some (PDict d) <-> encodable images = true)
     | SSystemPrompt sp =>
         Step_dict s = Ok [("system_prompt", PStr (system_prompt_text sp))]
         /\ json_roundtrip (PDict [("system_prompt", PStr (system_prompt_text sp))])
            = Some (PDict [("system_prompt", PStr (system_prompt_text sp))])
     | SCritic c => Step_dict s = Ok []
     end.
Proof.
  split; [apply Step_dict_outcome|]. split.
  - intros d v Hd Hv.
    destruct (json_roundtrip_spec (PDict d)) as [_ Hsame].
    pose proof (Hsame v Hv) as E. split; [exact E|].
    exists d. split; [exact E|].
    pose proof (Step_dict_outcome s) as H.
    destruct (step_copyable s).
    + destruct H as (d0 & E0 & K). rewrite E0 in Hd. apply Ok_inj in Hd. now subst.
    + rewrite H in Hd. discriminate.
  - destruct s as [a|p|t|sp|c].
    + assert (Htc : encodable
                      match tool_calls a with
                      | Some (tc :: tcs) => PList (map ToolCall_dict (tc :: tcs))
                      | _ => PList []
                      end = true).
      { destruct (tool_calls a) as [[|tc tcs]|]; try reflexivity.
        apply tool_calls_entry_encodable. }
      split; [reflexivity|]. split; [|split].
      * eexists; split; [reflexivity | exact Htc].
      * eexists; split; [reflexivity | apply make_json_serializable_encodable].
      * rewrite roundtrip_iff_encodable. unfold ActionStep_dict. cbn [forallb snd].
        rewrite Htc, make_json_serializable_encodable.
        rewrite !(opt_val_scalar_encodable PFloat) by reflexivity.
        rewrite (opt_val_scalar_encodable PInt) by reflexivity.
        rewrite !(opt_val_scalar_encodable PStr) by reflexivity.
        rewrite !andb_true_r. cbn [andb].
        rewrite !andb_true_iff. tauto.
    + intros d. rewrite Step_dict_planning.
      destruct (asdict_inner (PList (planning_model_input_messages p))) as [v1|];
        cbn [bind]; [|discriminate].
      destruct (asdict_inner (model_output_message_facts p)) as [v2|];
        cbn [bind]; [|discriminate].
      destruct (asdict_inner (model_output_message_plan p)) as [v3|];
        cbn [bind]; [|discriminate].
      intros E; apply Ok_inj in E; subst d.
      exists v1, v2, v3. do 4 (split; [reflexivity|]). split.
      * intros H. rewrite roundtrip_iff_encodable in H. cbn [forallb snd] in H.
        cbn [encodable is_some json_encode] in H.
        rewrite !andb_true_iff in H. tauto.
      * intros (H1 & H2 & H3). apply roundtrip_iff_encodable. cbn [forallb snd].
        rewrite H1, H2, H3. reflexivity.
    + intros d. rewrite Step_dict_task.
      destruct (asdict_inner (opt_val PList (task_images t))) as [v1|];
        cbn [bind]; [|discriminate].
      intros E; apply Ok_inj in E; subst d.
      exists v1. split; [reflexivity|]. split; [reflexivity|]. split.
      * intros H. rewrite roundtrip_iff_encodable in H. cbn [forallb snd] in H.
        apply andb_true_iff in H. destruct H as [_ H]. apply andb_true_iff in H. tauto.
      * intros H1. apply roundtrip_iff_encodable. cbn [forallb snd]. now rewrite H1.
    + split; reflexivity.
    + reflexivity.
Qed.

(** ** AgentMemory dumps *)




(* ===================================================================== *)
(** * Further properties of memory.py *)
(* ===================================================================== *)

(** ** strip *)

Lemma lstrip_spec (s : string) :
  exists pre, s = pre ++ lstrip s /\ all_space pre = true
              /\ starts_with_space (lstrip s) = false.
Proof.
  induction s as [|c r (pre & E & Hpre & Hs)]; cbn [lstrip].
  - exists ""; repeat split.
  - destruct (is_space c) eqn:Hc.
    + exists (String c pre); cbn. rewrite Hc, Hpre, <- E. repeat split. exact Hs.
    + exists ""; cbn. rewrite Hc. repeat split.
Qed.

Lemma rstrip_spec (s : string) :
  exists post, s = rstrip s ++ post /\ all_space post = true
               /\ ends_with_space (rstrip s) = false
               /\ (starts_with_space s = false -> starts_with_space (rstrip s) = false).
Proof.
  induction s as [|c r (post & E & Hpost & He & Hs)]; cbn [rstrip].
  - exists ""; repeat split.
  - destruct (rstrip r) as [|d r'] eqn:Hr.
    + destruct (is_space c) eqn:Hc.
      * exists (String c post). cbn in E |- *. rewrite Hc, Hpost, <- E. repeat split.
      * exists post. cbn in E |- *. rewrite Hc. subst r. repeat split; auto.
    + exists post. cbn [append]. rewrite E at 1. cbn [append].
      split; [reflexivity|]. split; [exact Hpost|]. split.
      * cbn [ends_with_space]. exact He.
      * cbn. auto.
Qed.

Lemma strip_spec (s : string) :
  exists pre post,
    s = pre ++ strip s ++ post
    /\ all_space pre = true /\ all_space post = true
    /\ starts_with_space (strip s) = false
    /\ ends_with_space (strip s) = false.
Proof.
  destruct (lstrip_spec s) as (pre & E1 & Hpre & Hs).
  destruct (rstrip_spec (lstrip s)) as (post & E2 & Hpost & He & Hs').
  exists pre, post. unfold strip.
  split; [rewrite <- E2; exact E1 | auto].
Qed.

Lemma str_length_append (a b : string) :
  String.length (a ++ b) = String.length a + String.length b.
Proof.
  induction a as [|c r IH]; cbn; [reflexivity | now rewrite IH].
Qed.

Lemma str_append_assoc (a b c : string) : (a ++ b) ++ c = a ++ (b ++ c).
Proof.
  induction a as [|x r IH]; cbn; [reflexivity | now rewrite IH].
Qed.

Lemma str_take_length_le (n : nat) (s : string) :
  String.length (str_take n s) <= n.
Proof.
  revert s; induction n as [|n IH]; intros s; cbn; [lia|].
  destruct s as [|c r]; cbn; [lia|]. specialize (IH r). lia.
Qed.

(** ** The renderers of the other steps *)

(** X1. A system prompt step renders nothing in summary mode, and otherwise one
    SYSTEM message whose text is the prompt without the whitespace around
    it: the prompt is that text between two runs of whitespace, and the
    text neither starts nor ends with whitespace. *)
Theorem system_prompt_message_is_trimmed (sp : SystemPromptStep) :
  SystemPromptStep_to_messages sp true = []
  /\ exists text pre post,
       SystemPromptStep_to_messages sp false = [text_message SYSTEM text]
       /\ system_prompt_text sp = pre ++ text ++ post
       /\ all_space pre = true /\ all_space post = true
       /\ starts_with_space text = false /\ ends_with_space text = false.
Proof.
  split; [reflexivity|].
  destruct (strip_spec (system_prompt_text sp)) as (pre & post & H).
  exists (strip (system_prompt_text sp)), pre, post. split; [reflexivity | exact H].
Qed.

(** X2. A planning step always renders its facts first; summary mode stops
    there, full mode adds the plan, so the summary rendering is the full
    one without its last message. Both texts are trimmed before they are
    put after their label. *)
Theorem planning_summary_is_prefix_of_full (p : PlanningStep) :
  exists facts_text plan_text,
    PlanningStep_to_messages p true
    = [text_message ASSISTANT ("[FACTS LIST]:" ++ LF ++ facts_text)]
    /\ PlanningStep_to_messages p false
       = (PlanningStep_to_messages p true
          ++ [text_message ASSISTANT ("[PLAN]:" ++ LF ++ plan_text)])%list
    /\ starts_with_space facts_text = false /\ ends_with_space facts_text = false
    /\ starts_with_space plan_text = false /\ ends_with_space plan_text = false
    /\ (exists pre post, facts p = pre ++ facts_text ++ post
                         /\ all_space pre = true /\ all_space post = true)
    /\ (exists pre post, plan p = pre ++ plan_text ++ post
                         /\ all_space pre = true /\ all_space post = true).
Proof.
  destruct (strip_spec (facts p)) as (pre1 & post1 & E1 & A1 & B1 & S1 & T1).
  destruct (strip_spec (plan p)) as (pre2 & post2 & E2 & A2 & B2 & S2 & T2).
  exists (strip (facts p)), (strip (plan p)).
  repeat split; try assumption; eauto.
Qed.

(** X3. A task step renders exactly one USER message: the text part
    [New task:] with the task, then one image part per task image, in
    order. No image list and an empty one give the same message. *)
Theorem task_message_parts (t : TaskStep) :
  exists parts,
    TaskStep_to_messages t = [ {| role := RoleOf USER; content := ContentParts parts |} ]
    /\ parts = (TextPart ("New task:" ++ LF ++ task t)
                :: map ImagePart (match task_images t with Some l => l | None => [] end))
    /\ length parts = 1 + length (match task_images t with Some l => l | None => [] end)
    /\ TaskStep_to_messages {| task := task t; task_images := None |}
       = TaskStep_to_messages {| task := task t; task_images := Some [] |}.
Proof.
  eexists. split; [reflexivity|]. split; [|split].
  - destruct (task_images t) as [[|i l]|]; reflexivity.
  - destruct (task_images t) as [[|i l]|]; cbn; try reflexivity.
    now rewrite length_map.
  - reflexivity.
Qed.

(** ** CriticStep: bounded texts *)

(** X4. The summary message of a critic step is bounded: its text never has
    more than 221 characters, whatever the feedback. A feedback of at most
    200 characters is shown whole, with no dots added. *)
Theorem critic_summary_is_bounded (c : CriticStep) :
  exists text,
    CriticStep_to_messages c true = [critic_message text]
    /\ String.length text <= 221
    /\ (String.length (feedback c) <= 200 ->
        text = "[Critic " ++ (if accepted c then "ACCEPTED" else "REJECTED") ++ "] "
               ++ feedback c).
Proof.
  eexists. split; [reflexivity|]. split.
  - rewrite !str_length_append.
    assert (String.length (if accepted c then "ACCEPTED" else "REJECTED") = 8)
      as -> by (destruct (accepted c); reflexivity).
    destruct (200 <? String.length (feedback c))%nat eqn:E.
    + rewrite str_length_append. pose proof (str_take_length_le 200 (feedback c)).
      cbn [String.length]. lia.
    + apply Nat.ltb_ge in E. cbn [String.length]. lia.
  - intros H. apply Nat.ltb_ge in H. now rewrite H.
Qed.

(** X5. [str(critic_step)] is bounded too: at most 91 characters. It shows
    the verdict, and the feedback whole when it has at most 50 characters,
    its first 50 characters and three dots otherwise. *)
Theorem critic_str_is_bounded (c : CriticStep) :
  String.length (CriticStep_str c) <= 91
  /\ (String.length (feedback c) <= 50 ->
      CriticStep_str c
      = "CriticStep(status=" ++ (if accepted c then "ACCEPTED" else "REJECTED")
        ++ ", feedback=" ++ feedback c ++ ")")
  /\ (50 < String.length (feedback c) ->
      CriticStep_str c
      = "CriticStep(status=" ++ (if accepted c then "ACCEPTED" else "REJECTED")
        ++ ", feedback=" ++ str_take 50 (feedback c) ++ "...)"
      /\ String.length (str_take 50 (feedback c)) = 50).
Proof.
  unfold CriticStep_str. split; [|split].
  - rewrite !str_length_append.
    assert (String.length (if accepted c then "ACCEPTED" else "REJECTED") = 8)
      as -> by (destruct (accepted c); reflexivity).
    destruct (50 <? String.length (feedback c))%nat eqn:E.
    + rewrite str_length_append. pose proof (str_take_length_le 50 (feedback c)).
      cbn [String.length]. lia.
    + apply Nat.ltb_ge in E. cbn [String.length]. lia.
  - intros H. apply Nat.ltb_ge in H. now rewrite H.
  - intros H. split.
    + apply Nat.ltb_lt in H. rewrite H.
      rewrite !str_append_assoc. reflexivity.
    + apply str_take_length. lia.
Qed.

(** ** The extension: constructor and rendering *)

(** X6. Unlike the rendering, the constructor wrap settles: after any number
    [n >= 1] of installs, a new instance has its twelve fields as given and
    [critic_steps] set to the empty list; before any install it has no
    such attribute. *)
Theorem installed_init_gives_empty_critic_steps (n : nat) (args : ActionStepFields) :
  init_method (installed (S n)) args = {| fields := args; critic_steps := Some [] |}
  /\ critic_steps (init_method (installed 0) args) = None.
Proof.
  split; [|reflexivity].
  induction n as [|n IH].
  - reflexivity.
  - change (installed (S (S n))) with (patch_action_step (installed (S n))).
    cbn [patch_action_step init_method]. unfold init_with_critic_steps.
    rewrite IH. reflexivity.
Qed.

(** Any number of installs, on any outcome of the class's own rendering. *)
Lemma installed_to_messages_bind (n : nat) (self : ActionStep) (sm : bool) :
  to_messages_method (installed n) self (mkCall [sm] [])
  = (base <- ActionStep_to_messages self (mkCall [sm] []) ;;
     Ok (base ++ concat (repeat (critic_messages self sm) n))%list).
Proof.
  destruct (ActionStep_to_messages self (mkCall [sm] [])) as [base|e] eqn:E.
  - cbn [bind]. now apply installed_to_messages.
  - cbn [bind]. induction n as [|n IH].
    + exact E.
    + change (installed (S n)) with (patch_action_step (installed n)).
      cbn [patch_action_step to_messages_method].
      rewrite (wrapper_unfold _ _ _ sm (bind_one_positional sm)).
      now rewrite IH.
Qed.

Lemma concat_repeat_nil {A : Type} (n : nat) : concat (repeat (@nil A) n) = [].
Proof. induction n as [|n IH]; cbn; [reflexivity | exact IH]. Qed.

(** A call the wrapper's signature accepts passes at most [summary_mode],
    by position or by keyword; the class's own signature binds it to the
    same value and leaves [show_model_input_messages] at its default. *)
Lemma wrapper_call_binds (call : CallArgs) (env : list (string * bool)) :
  bind_args [("summary_mode", false)] call = Ok env ->
  exists sm,
    env = [("summary_mode", sm)]
    /\ bind_args [("summary_mode", false); ("show_model_input_messages", false)] call
       = Ok [("summary_mode", sm); ("show_model_input_messages", false)].
Proof.
  destruct call as [pos kws]. unfold bind_args. cbn [positional keywords].
  destruct pos as [|p [|q pos]].
  - cbn [bind_positional bind length firstn map].
    destruct kws as [|[k v] kws].
    + cbn. intros E; apply Ok_inj in E; subst env. exists false. split; reflexivity.
    + cbn [bind_keywords map fst str_in].
      destruct (String.eqb k "summary_mode") eqn:Ek; cbn [orb negb]; [|discriminate].
      cbn [assign]. rewrite Ek.
      destruct kws as [|[k' v'] kws].
      * cbn. intros E; apply Ok_inj in E; subst env. exists v. split; reflexivity.
      * cbn [bind_keywords map fst str_in].
        destruct (String.eqb k' "summary_mode") eqn:Ek'; cbn [orb negb]; [|discriminate].
        apply String.eqb_eq in Ek, Ek'. subst k k'. cbn. discriminate.
  - cbn [bind_positional bind length firstn map fst].
    destruct kws as [|[k v] kws].
    + cbn. intros E; apply Ok_inj in E; subst env. exists p. split; reflexivity.
    + cbn [bind_keywords map fst str_in].
      destruct (String.eqb k "summary_mode") eqn:Ek; cbn [orb negb]; discriminate.
  - cbn. discriminate.
Qed.

Lemma wrapper_call_refused (call : CallArgs) (e : PyExc) :
  bind_args [("summary_mode", false)] call = Raise e -> e = TypeError.
Proof.
  destruct call as [pos kws]. unfold bind_args. cbn [positional keywords].
  destruct pos as [|p [|q pos]].
  - cbn [bind_positional bind length firstn map].
    destruct kws as [|[k v] kws]; [discriminate|].
    cbn [bind_keywords map fst str_in].
    destruct (String.eqb k "summary_mode") eqn:Ek; cbn [orb negb]; [|congruence].
    cbn [assign]. rewrite Ek.
    destruct kws as [|[k' v'] kws]; [discriminate|].
    cbn [bind_keywords map fst str_in].
    destruct (String.eqb k' "summary_mode") eqn:Ek'; cbn [orb negb]; [|congruence].
    apply String.eqb_eq in Ek, Ek'. subst k k'. cbn. congruence.
  - cbn [bind_positional bind length firstn map fst].
    destruct kws as [|[k v] kws]; [discriminate|].
    cbn [bind_keywords map fst str_in].
    destruct (String.eqb k "summary_mode") eqn:Ek; cbn [orb negb]; congruence.
  - cbn. congruence.
Qed.

(** X7. A step with no [critic_steps] attribute (built before the install) or
    with an empty list renders, after any number of installs, exactly as
    the class's own method does, for every call that passes at most
    [summary_mode], by position or by keyword; that includes the exception
    the class's own method raises. Any other call (one that passes
    [show_model_input_messages], which the class's own method accepts,
    among them) is refused by the installed method with [TypeError]. *)
Theorem installs_are_transparent_without_critics (n : nat) (self : ActionStep)
    (call : CallArgs) :
  critic_steps self = None \/ critic_steps self = Some [] ->
  to_messages_method (installed n) self call
  = match n with
    | O => ActionStep_to_messages self call
    | S _ =>
        match bind_args [("summary_mode", false)] call with
        | Ok _ => ActionStep_to_messages self call
        | Raise _ => Raise TypeError
        end
    end.
Proof.
  intros H. destruct n as [|n]; [reflexivity|].
  change (installed (S n)) with (patch_action_step (installed n)).
  cbn [patch_action_step to_messages_method].
  destruct (bind_args [("summary_mode", false)] call) as [env|e] eqn:E.
  - destruct (wrapper_call_binds call env E) as (sm & -> & Ebase).
    rewrite (wrapper_unfold _ _ _ sm E), installed_to_messages_bind.
    assert (Hcm : critic_messages self sm = []).
    { unfold critic_messages. destruct H as [-> | ->]; reflexivity. }
    rewrite Hcm, concat_repeat_nil.
    unfold ActionStep_to_messages at 2. rewrite Ebase. cbn [bind].
    change (arg "summary_mode"
              [("summary_mode", sm); ("show_model_input_messages", false)]) with sm.
    change (arg "show_model_input_messages"
              [("summary_mode", sm); ("show_model_input_messages", false)]) with false.
    change (ActionStep_to_messages self (mkCall [sm] []))
      with (ActionStep_to_messages_body self sm false).
    destruct (ActionStep_to_messages_body self sm false) as [msgs|e']; cbn [bind];
      [now rewrite !app_nil_r | reflexivity].
  - unfold to_messages_with_critic_steps. rewrite E. cbn [bind].
    now rewrite (wrapper_call_refused call e E).
Qed.

Lemma installs_are_transparent_without_critics_witness :
  to_messages_method (installed 3) step_input_only (mkCall [] [("summary_mode", true)])
  = ActionStep_to_messages step_input_only (mkCall [] [("summary_mode", true)]).
Proof.
  apply (installs_are_transparent_without_critics 3 step_input_only
           (mkCall [] [("summary_mode", true)])).
  right; reflexivity.
Defined.

(** X8. An exception of the class's own rendering passes through every
    installed layer unchanged, whatever critic steps the step holds. *)
Theorem installs_propagate_exceptions (n : nat) (self : ActionStep) (sm : bool)
    (e : PyExc) :
  ActionStep_to_messages self (mkCall [sm] []) = Raise e ->
  to_messages_method (installed n) self (mkCall [sm] []) = Raise e.
Proof.
  intros H. rewrite installed_to_messages_bind, H. reflexivity.
Qed.

(** [sample_step] with its observation kept and its tool calls removed. *)
Lemma installs_propagate_exceptions_witness :
  to_messages_method (installed 2) (with_tool_calls sample_step None) (mkCall [true] [])
  = Raise TypeError.
Proof.
  apply (installs_propagate_exceptions 2 (with_tool_calls sample_step None) true TypeError).
  reflexivity.
Defined.

Lemma flat_map_summary (cs : list CriticStep) :
  flat_map (fun c => CriticStep_to_messages c true) cs
  = map (fun c => critic_message
                    ("[Critic " ++ (if accepted c then "ACCEPTED" else "REJECTED") ++ "] "
                     ++ summary_feedback c)) cs.
Proof.
  induction cs as [|c r IH]; cbn [flat_map map]; [reflexivity|].
  now rewrite IH, critic_summary_message.
Qed.

Lemma flat_map_full (cs : list CriticStep) :
  flat_map (fun c => CriticStep_to_messages c false) cs
  = map (fun c => critic_message ("[Critic Review] " ++ feedback c))
        (filter (fun c => opt_truthy (critic_model_output_message c)) cs).
Proof.
  induction cs as [|c r IH]; cbn [flat_map map filter]; [reflexivity|].
  rewrite IH. unfold CriticStep_to_messages at 1.
  destruct (opt_truthy (critic_model_output_message c)); reflexivity.
Qed.

(** X9. After the install on import, for a step with any list of critic steps
    whose base rendering returns: summary mode appends one message per
    critic step, in the order of the list; full mode appends one message
    per critic step that has a model output message, in order, and nothing
    for the others. *)
Theorem patched_appends_per_critic_step (self : ActionStep) (cs : list CriticStep)
    (sm : bool) (base : list Message) :
  critic_steps self = Some cs ->
  ActionStep_to_messages self (mkCall [sm] []) = Ok base ->
  exists appended,
    to_messages_method patched_action_step self (mkCall [sm] []) = Ok (base ++ appended)%list
    /\ (sm = true ->
        appended
        = map (fun c => critic_message
                          ("[Critic " ++ (if accepted c then "ACCEPTED" else "REJECTED")
                           ++ "] " ++ summary_feedback c)) cs
        /\ length appended = length cs)
    /\ (sm = false ->
        appended
        = map (fun c => critic_message ("[Critic Review] " ++ feedback c))
              (filter (fun c => opt_truthy (critic_model_output_message c)) cs)
        /\ length appended <= length cs).
Proof.
  intros Hcs Hbase. exists (critic_messages self sm). split; [|split].
  - unfold patched_action_step. cbn [patch_action_step to_messages_method ActionStep_class].
    rewrite (wrapper_unfold _ _ _ sm (bind_one_positional sm)), Hbase. reflexivity.
  - intros ->. unfold critic_messages. rewrite Hcs, flat_map_summary.
    split; [reflexivity | now rewrite length_map].
  - intros ->. unfold critic_messages. rewrite Hcs, flat_map_full.
    split; [reflexivity|]. rewrite length_map. apply filter_length_le.
Qed.

Lemma patched_appends_per_critic_step_witness :
  exists appended,
    to_messages_method patched_action_step sample_step (mkCall [false] [])
    = Ok ([ text_message ASSISTANT "thinking";
            text_message ASSISTANT
              ("Calling tools:" ++ LF ++ py_repr (PList [ToolCall_dict sample_tool_call]));
            text_message TOOL_RESPONSE
              ("Call id: tc_1" ++ LF ++ "Observation:" ++ LF ++ "42") ]
          ++ appended)%list
    /\ (false = true ->
        appended
        = map (fun c => critic_message
                          ("[Critic " ++ (if accepted c then "ACCEPTED" else "REJECTED")
                           ++ "] " ++ summary_feedback c)) [sample_accept; sample_reject]
        /\ length appended = length [sample_accept; sample_reject])
    /\ (false = false ->
        appended
        = map (fun c => critic_message ("[Critic Review] " ++ feedback c))
              (filter (fun c => opt_truthy (critic_model_output_message c))
                      [sample_accept; sample_reject])
        /\ length appended <= length [sample_accept; sample_reject]).
Proof.
  apply (patched_appends_per_critic_step sample_step [sample_accept; sample_reject] false);
    reflexivity.
Defined.

(** ** ActionStep.to_messages: what it returns and when it raises *)

(** X10. The rendering raises in exactly one situation: [observations] is set
    and there is no first tool call. It is [TypeError] when [tool_calls] is
    [None], [IndexError] when it is the empty list; in every other case it
    returns. *)
Theorem to_messages_raises_exactly_without_first_tool_call (self : ActionStep)
    (summary_mode show : bool) :
  match observations self, tool_calls self with
  | Some _, None =>
      ActionStep_to_messages_body self summary_mode show = Raise TypeError
  | Some _, Some [] =>
      ActionStep_to_messages_body self summary_mode show = Raise IndexError
  | _, _ =>
      exists out, ActionStep_to_messages_body self summary_mode show = Ok out
  end.
Proof.
  unfold ActionStep_to_messages_body, first_tool_call.
  destruct (observations self), (tool_calls self) as [[|tc tcs]|];
    cbn [bind]; eauto.
Qed.

Lemma roles_of_rendering (self : ActionStep) (summary_mode show : bool)
    (out : list Message) :
  ActionStep_to_messages_body self summary_mode show = Ok out ->
  map role out = expected_roles self summary_mode show.
Proof.
  unfold ActionStep_to_messages_body, first_tool_call, expected_roles.
  destruct (model_input_messages self), show, (model_output self), summary_mode,
    (tool_calls self) as [[|tc tcs]|], (observations self), (error self),
    (observations_images self) as [[|i im]|];
    cbn [bind negb]; intros H; try discriminate H;
    apply Ok_inj in H; rewrite <- H; reflexivity.
Qed.

(** X11. When the rendering returns, the roles of its messages are fixed by
    which sources are set, in the order of the six blocks: SYSTEM (input
    echo), ASSISTANT (model output, not in summary mode), ASSISTANT (tool
    calls, also for an empty list), TOOL_RESPONSE (observation),
    TOOL_RESPONSE (error), USER (images, for a non-empty list). So it
    returns at most six messages. *)
Theorem to_messages_roles (self : ActionStep) (summary_mode show : bool)
    (out : list Message) :
  ActionStep_to_messages_body self summary_mode show = Ok out ->
  map role out = expected_roles self summary_mode show
  /\ length out <= 6.
Proof.
  intros H. pose proof (roles_of_rendering self summary_mode show out H) as Hr.
  split; [exact Hr|].
  rewrite <- (length_map role), Hr. unfold expected_roles.
  rewrite !length_app.
  destruct (model_input_messages self), show, (model_output self), summary_mode,
    (tool_calls self), (observations self), (error self),
    (observations_images self) as [[|i im]|]; cbn [length]; lia.
Qed.

Lemma to_messages_roles_witness :
  map role [ text_message ASSISTANT
               ("Calling tools:" ++ LF ++ py_repr (PList [ToolCall_dict sample_tool_call]));
             text_message TOOL_RESPONSE
               ("Call id: tc_1" ++ LF ++ "Observation:" ++ LF ++ "42") ]
  = expected_roles sample_step true false
  /\ length [ text_message ASSISTANT
                ("Calling tools:" ++ LF ++ py_repr (PList [ToolCall_dict sample_tool_call]));
              text_message TOOL_RESPONSE
                ("Call id: tc_1" ++ LF ++ "Observation:" ++ LF ++ "42") ] <= 6.
Proof.
  apply (to_messages_roles sample_step true false). reflexivity.
Defined.

(** X12. In summary mode the rendering does not depend on [model_output]: a
    step renders the same whatever its model output is, or without one. *)
Theorem summary_mode_ignores_model_output (self : ActionStep) (output : option string)
    (show : bool) :
  ActionStep_to_messages_body (with_model_output self output) true show
  = ActionStep_to_messages_body self true show.
Proof.
  unfold ActionStep_to_messages_body, first_tool_call, with_model_output.
  cbn [fields model_input_messages model_output tool_calls observations error
       observations_images negb].
  destruct output, (model_output self); reflexivity.
Qed.

(** X13. After the install on import, no call of [to_messages] returns a SYSTEM
    message: whatever the arguments, the replacement either refuses them or
    calls the class's method with [summary_mode] alone, and the critic
    messages carry the role string [assistant]. *)
Theorem patched_to_messages_has_no_system_message (self : ActionStep)
    (call : CallArgs) (out : list Message) :
  to_messages_method patched_action_step self call = Ok out ->
  Forall (fun m => role m <> RoleOf SYSTEM) out.
Proof.
  unfold patched_action_step.
  cbn [patch_action_step to_messages_method ActionStep_class].
  unfold to_messages_with_critic_steps.
  destruct (bind_args [("summary_mode", false)] call) as [env|e]; cbn [bind];
    [|discriminate].
  set (sm := arg "summary_mode" env).
  unfold ActionStep_to_messages.
  change (bind_args _ (mkCall [sm] []))
    with (Ok [("summary_mode", sm); ("show_model_input_messages", false)]).
  cbn [bind].
  change (arg "summary_mode" _) with sm.
  change (arg "show_model_input_messages" _) with false.
  destruct (ActionStep_to_messages_body self sm false) as [base|e] eqn:Hb; cbn [bind];
    [|discriminate].
  assert (Hbase : Forall (fun m => role m <> RoleOf SYSTEM) base).
  { pose proof (roles_of_rendering self sm false base Hb) as Hr.
    assert (Hroles : Forall (fun r => r <> RoleOf SYSTEM) (map role base)).
    { rewrite Hr. unfold expected_roles.
      destruct (model_input_messages self), (model_output self), sm,
        (tool_calls self), (observations self), (error self),
        (observations_images self) as [[|i im]|];
        cbn [app]; repeat constructor; discriminate. }
    now rewrite Forall_map in Hroles. }
  assert (Hcrit : forall cs,
    Forall (fun m => role m <> RoleOf SYSTEM)
           (flat_map (fun c => CriticStep_to_messages c sm) cs)).
  { intros cs. apply Forall_flat_map. apply Forall_forall. intros c _.
    unfold CriticStep_to_messages.
    destruct sm, (opt_truthy (critic_model_output_message c));
      repeat constructor; discriminate. }
  destruct (critic_steps self) as [[|c cs]|]; intros E; apply Ok_inj in E;
    rewrite <- E; try exact Hbase.
  rewrite fold_extend. apply Forall_app. split; [exact Hbase | apply Hcrit].
Qed.

Lemma patched_to_messages_has_no_system_message_witness :
  Forall (fun m => role m <> RoleOf SYSTEM)
    [ text_message ASSISTANT
        ("Calling tools:" ++ LF ++ py_repr (PList [ToolCall_dict sample_tool_call]));
      text_message TOOL_RESPONSE ("Call id: tc_1" ++ LF ++ "Observation:" ++ LF ++ "42");
      critic_message "[Critic ACCEPTED] looks right";
      critic_message "[Critic REJECTED] off by one" ].
Proof.
  apply (patched_to_messages_has_no_system_message sample_step (mkCall [true] [])).
  reflexivity.
Defined.

Lemma str_prefix_append (p rest : string) : str_prefix p (p ++ rest) = true.
Proof.
  induction p as [|c r IH]; cbn; [reflexivity|].
  now rewrite Ascii.eqb_refl, IH.
Qed.

(** X14. Whenever the rendering returns for a step with [error] set, the
    result holds the TOOL_RESPONSE message of the error, followed by nothing
    or by the images message only. Its text starts with [Call id: ] and the
    id of the first tool call when there is one, and with [Error:]
    otherwise; then come the error's string form and the retry advice. *)
Theorem error_message_when_rendering_returns (self : ActionStep) (err : AgentError)
    (summary_mode show : bool) (out : list Message) :
  error self = Some err ->
  ActionStep_to_messages_body self summary_mode show = Ok out ->
  exists before after,
    out = (before ++ text_message TOOL_RESPONSE (error_text self err) :: after)%list
    /\ (after = [] \/ exists parts, after = [ {| role := RoleOf USER; content := parts |} ])
    /\ match tool_calls self with
       | Some (tc :: _) =>
           error_text self err
           = "Call id: " ++ id tc ++ LF ++ "Error:" ++ LF ++ error_str err ++ retry_suffix
           /\ str_prefix ("Call id: " ++ id tc) (error_text self err) = true
       | _ =>
           error_text self err = "Error:" ++ LF ++ error_str err ++ retry_suffix
       end.
Proof.
  intros Herr Hout.
  assert (Hsafe : observations self = None
                  \/ exists tc tcs, tool_calls self = Some (tc :: tcs)).
  { destruct (observations self) as [obs|] eqn:Hobs; [|now left].
    destruct (tool_calls self) as [[|tc tcs]|] eqn:Htc; [| right; eauto |];
      exfalso; revert Hout;
      unfold ActionStep_to_messages_body, first_tool_call; rewrite Hobs, Htc;
      discriminate. }
  destruct (error_is_rendered self err summary_mode show Herr Hsafe)
    as (before & after & E & Hafter).
  rewrite E in Hout. apply Ok_inj in Hout.
  exists before, after. split; [now symmetry|]. split; [exact Hafter|].
  unfold error_text. destruct (tool_calls self) as [[|tc tcs]|]; try reflexivity.
  split.
  - now rewrite !str_append_assoc.
  - rewrite !str_append_assoc. rewrite <- (str_append_assoc "Call id: " (id tc)).
    apply str_prefix_append.
Qed.

Lemma error_message_when_rendering_returns_witness :
  exists before after,
    [ text_message ASSISTANT
        ("Calling tools:" ++ LF ++ py_repr (PList [ToolCall_dict sample_tool_call]));
      text_message TOOL_RESPONSE ("Call id: tc_1" ++ LF ++ "Observation:" ++ LF ++ "42");
      text_message TOOL_RESPONSE
        ("Call id: tc_1" ++ LF ++ "Error:" ++ LF ++ "boom" ++ retry_suffix) ]
    = (before
       ++ text_message TOOL_RESPONSE
            (error_text (with_tool_calls step_error_and_observation (Some [sample_tool_call]))
               {| error_str := "boom";
                  error_dict := PDict [("type", PStr "AgentError"); ("message", PStr "boom")] |})
          :: after)%list
    /\ (after = [] \/ exists parts, after = [ {| role := RoleOf USER; content := parts |} ])
    /\ (error_text (with_tool_calls step_error_and_observation (Some [sample_tool_call]))
          {| error_str := "boom";
             error_dict := PDict [("type", PStr "AgentError"); ("message", PStr "boom")] |}
        = "Call id: " ++ id sample_tool_call ++ LF ++ "Error:" ++ LF ++ "boom" ++ retry_suffix
        /\ str_prefix ("Call id: " ++ id sample_tool_call)
             (error_text (with_tool_calls step_error_and_observation (Some [sample_tool_call]))
                {| error_str := "boom";
                   error_dict := PDict [("type", PStr "AgentError");
                                        ("message", PStr "boom")] |}) = true).
Proof.
  apply (error_message_when_rendering_returns
           (with_tool_calls step_error_and_observation (Some [sample_tool_call]))
           {| error_str := "boom";
              error_dict := PDict [("type", PStr "AgentError"); ("message", PStr "boom")] |}
           true false);
    reflexivity.
Defined.

(** ** ActionStep.dict: edge cases *)

(** X15. In the record of an action step, [tool_calls] is always a list, one
    rendered tool call per tool call in order: no tool calls ([None]) and an
    empty list give the same record. The step number is under [step]; there
    is no entry named [step_number] and none for the observation images. *)
Theorem action_record_edge_cases (self : ActionStep) :
  lookup "tool_calls" (ActionStep_dict self)
  = Some (PList (map ToolCall_dict
                     (match tool_calls self with Some l => l | None => [] end)))
  /\ ActionStep_dict (with_tool_calls self None)
     = ActionStep_dict (with_tool_calls self (Some []))
  /\ lookup "step" (ActionStep_dict self) = Some (opt_val PInt (step_number self))
  /\ lookup "step_number" (ActionStep_dict self) = None
  /\ lookup "observations_images" (ActionStep_dict self) = None.
Proof.
  split; [|repeat split].
  unfold ActionStep_dict. cbn [lookup String.eqb Ascii.eqb Bool.eqb].
  destruct (tool_calls self) as [[|tc tcs]|]; reflexivity.
Qed.

(* ===================================================================== *)
(** * Properties of monitoring.py and of replay *)
(* ===================================================================== *)

(** ** The level of a logging call *)

(** X16. Each of the five logging methods, called with a member of [LogLevel]
    and, for [log_markdown], with a string to render, prints nothing and
    returns when that level is above the logger's, and otherwise prints
    exactly one renderable; the logger's level never changes. [log_markdown]
    called with [None] for its content also returns when the level is above
    the logger's; otherwise it raises [TypeError] and prints nothing. *)
Theorem logging_is_filtered_by_level (l : LogLevel) (lg : AgentLogger)
    (content : Renderable) (text markdown : string)
    (title subtitle agent_name : option string) :
  filtered_by_level l lg (log content (LevelOf l) agent_name)
  /\ filtered_by_level l lg (log_markdown (Some markdown) title (LevelOf l) agent_name)
  /\ log_markdown None title (LevelOf l) agent_name lg
     = (lg, if (LogLevel_value l >? level lg)%Z then Ok tt else Raise TypeError)
  /\ filtered_by_level l lg (log_code text title (LevelOf l) agent_name)
  /\ filtered_by_level l lg (log_task text subtitle (LevelOf l) agent_name)
  /\ filtered_by_level l lg (log_rule text (LevelOf l) agent_name).
Proof.
  unfold filtered_by_level, log, log_markdown, log_code, log_task, log_rule,
    ebind, elift, Markdown, level_allows, level_value, eret, console_print,
    printed, append.
  destruct (LogLevel_value l >? level lg)%Z; cbn [negb].
  - repeat split.
  - split; [eexists; reflexivity|]. split; [eexists; reflexivity|].
    split; [reflexivity|]. repeat split; eexists; reflexivity.
Qed.

(** X17. A level that is not a member of [LogLevel] (a plain integer, a string)
    makes each of the five logging methods raise [AttributeError], whatever
    the logger's level, and nothing is printed. *)
Theorem logging_needs_a_LogLevel (level_arg : LevelArg) (lg : AgentLogger)
    (content : Renderable) (text : string) (markdown title subtitle agent_name : option string) :
  match level_arg with
  | LevelOf _ => True
  | _ =>
      log content level_arg agent_name lg = (lg, Raise AttributeError)
      /\ log_markdown markdown title level_arg agent_name lg = (lg, Raise AttributeError)
      /\ log_code text title level_arg agent_name lg = (lg, Raise AttributeError)
      /\ log_task text subtitle level_arg agent_name lg = (lg, Raise AttributeError)
      /\ log_rule text level_arg agent_name lg = (lg, Raise AttributeError)
  end.
Proof.
  destruct level_arg; [exact I | |]; repeat split.
Qed.

(** ** Titles and subtitles *)

(** X18. When the level lets them print, [log_markdown], given a string to
    render, and [log_code] put their content in a panel with the same
    title: the agent tag and the title joined by [ - ] when both are given,
    the one that is given otherwise, and no title when neither is (an empty
    string counts as not given). *)
Theorem markdown_and_code_panels_share_title (l : LogLevel) (lg : AgentLogger)
    (markdown code : string) (title agent_name : option string) :
  (LogLevel_value l <= level lg)%Z ->
  log_markdown (Some markdown) title (LevelOf l) agent_name lg
  = (printed lg (RPanel (RMarkdown markdown) (panel_title agent_name title) None None), Ok tt)
  /\ log_code code title (LevelOf l) agent_name lg
     = (printed lg (RPanel (RSyntax code "python" None false)
                           (panel_title agent_name title) None None), Ok tt)
  /\ (panel_title agent_name title = None
      <-> str_truthy agent_name = false /\ str_truthy title = false)
  /\ (str_truthy agent_name = true ->
      exists rest, panel_title agent_name title
                   = Some ("[bold blue]Agent: " ++ str_or_empty agent_name
                           ++ "[/bold blue]" ++ rest)).
Proof.
  intros Hl.
  assert (Hq : (LogLevel_value l >? level lg)%Z = false)
    by (rewrite Z.gtb_ltb; apply Z.ltb_ge; lia).
  split; [|split; [|split]].
  - unfold log_markdown, ebind, level_allows, level_value. rewrite Hq. reflexivity.
  - unfold log_code, ebind, level_allows, level_value. rewrite Hq. reflexivity.
  - unfold panel_title.
    destruct (str_truthy agent_name), (str_truthy title) eqn:Ht; cbn [andb];
      split; try discriminate; try (intros [? ?]; discriminate); auto.
    intros E. rewrite E in Ht. discriminate.
  - intros Ha. unfold panel_title, agent_title. rewrite Ha.
    destruct (str_truthy title); cbn [andb].
    + eexists. rewrite !str_append_assoc. reflexivity.
    + exists "". reflexivity.
Qed.

Lemma markdown_and_code_panels_share_title_witness :
  log_markdown (Some "# plan") (Some "Plan") (LevelOf INFO) (Some "web") (AgentLogger_init 1)
  = (printed (AgentLogger_init 1)
       (RPanel (RMarkdown "# plan") (panel_title (Some "web") (Some "Plan")) None None),
     Ok tt)
  /\ log_code "print(1)" (Some "Plan") (LevelOf INFO) (Some "web") (AgentLogger_init 1)
     = (printed (AgentLogger_init 1)
          (RPanel (RSyntax "print(1)" "python" None false)
                  (panel_title (Some "web") (Some "Plan")) None None), Ok tt)
  /\ (panel_title (Some "web") (Some "Plan") = None
      <-> str_truthy (Some "web") = false /\ str_truthy (Some "Plan") = false)
  /\ (str_truthy (Some "web") = true ->
      exists rest, panel_title (Some "web") (Some "Plan")
                   = Some ("[bold blue]Agent: " ++ str_or_empty (Some "web")
                           ++ "[/bold blue]" ++ rest)).
Proof.
  apply (markdown_and_code_panels_share_title INFO (AgentLogger_init 1)).
  cbn. lia.
Defined.

Lemma contains_agent_prefix (rest : string) :
  str_contains "Agent:" ("Agent: " ++ rest) = true.
Proof. reflexivity. Qed.

Lemma str_truthy_name (name : string) : name <> "" -> str_truthy (Some name) = true.
Proof.
  intros H. cbn. destruct (String.eqb name "") eqn:E; [|reflexivity].
  apply String.eqb_eq in E. contradiction.
Qed.

Lemma contains_agent_nonempty (s : string) :
  str_contains "Agent:" s = true -> s <> "".
Proof. intros H E. subst s. discriminate H. Qed.

(** X19. When [log_task] prints for a named agent, the panel's subtitle always
    carries the tag [Agent:]: it is added in front of a subtitle that lacks
    it, stands alone when there is no subtitle, and a subtitle that has it
    already is kept as it is, so passing the result again changes nothing.
    Without an agent name the subtitle is passed on untouched. *)
Theorem task_subtitle_names_the_agent (l : LogLevel) (lg : AgentLogger)
    (content name : string) (subtitle : option string) :
  name <> "" ->
  (LogLevel_value l <= level lg)%Z ->
  exists s,
    log_task content subtitle (LevelOf l) (Some name) lg
    = (printed lg (RPanel (RText content "black") (Some "Task") (Some s) (Some "black")),
       Ok tt)
    /\ str_contains "Agent:" s = true
    /\ (str_truthy subtitle = false -> s = "Agent: " ++ name)
    /\ log_task content (Some s) (LevelOf l) (Some name) lg
       = log_task content subtitle (LevelOf l) (Some name) lg
    /\ log_task content subtitle (LevelOf l) None lg
       = (printed lg (RPanel (RText content "black") (Some "Task") subtitle (Some "black")),
          Ok tt).
Proof.
  intros Hname Hl.
  assert (Hq : (LogLevel_value l >? level lg)%Z = false)
    by (rewrite Z.gtb_ltb; apply Z.ltb_ge; lia).
  assert (Hlog : forall sub agent,
    log_task content sub (LevelOf l) agent lg
    = (printed lg (RPanel (RText content "black") (Some "Task")
                          (task_subtitle agent sub) (Some "black")), Ok tt)).
  { intros sub agent. unfold log_task, ebind, level_allows, level_value.
    rewrite Hq. reflexivity. }
  assert (Hidem : forall s, str_contains "Agent:" s = true ->
                            task_subtitle (Some name) (Some s) = Some s).
  { intros s Hs. unfold task_subtitle. cbn [str_or_empty]. rewrite Hs.
    rewrite (str_truthy_name name Hname), (str_truthy_name s (contains_agent_nonempty s Hs)).
    reflexivity. }
  assert (Hsub : exists s, task_subtitle (Some name) subtitle = Some s
                           /\ str_contains "Agent:" s = true
                           /\ (str_truthy subtitle = false -> s = "Agent: " ++ name)).
  { unfold task_subtitle. rewrite (str_truthy_name name Hname). cbn [str_or_empty andb].
    destruct (str_truthy subtitle) eqn:Ht; cbn [negb andb].
    - destruct subtitle as [sub|]; [|discriminate Ht]. cbn [str_or_empty].
      destruct (str_contains "Agent:" sub) eqn:Hc; cbn [negb].
      + exists sub. repeat split; try assumption; intros; discriminate.
      + eexists. repeat split; try apply contains_agent_prefix; intros; discriminate.
    - eexists. repeat split; apply contains_agent_prefix. }
  destruct Hsub as (s & Es & Hs & Hempty).
  exists s. rewrite !Hlog, Es, (Hidem s Hs). repeat split; assumption.
Qed.

Lemma task_subtitle_names_the_agent_witness :
  exists s,
    log_task "find the bug" (Some "run 3") (LevelOf INFO) (Some "web") (AgentLogger_init 2)
    = (printed (AgentLogger_init 2)
         (RPanel (RText "find the bug" "black") (Some "Task") (Some s) (Some "black")),
       Ok tt)
    /\ str_contains "Agent:" s = true
    /\ (str_truthy (Some "run 3") = false -> s = "Agent: " ++ "web")
    /\ log_task "find the bug" (Some s) (LevelOf INFO) (Some "web") (AgentLogger_init 2)
       = log_task "find the bug" (Some "run 3") (LevelOf INFO) (Some "web") (AgentLogger_init 2)
    /\ log_task "find the bug" (Some "run 3") (LevelOf INFO) None (AgentLogger_init 2)
       = (printed (AgentLogger_init 2)
            (RPanel (RText "find the bug" "black") (Some "Task") (Some "run 3") (Some "black")),
          Ok tt).
Proof.
  apply (task_subtitle_names_the_agent INFO (AgentLogger_init 2) "find the bug" "web"
           (Some "run 3")).
  - discriminate.
  - cbn. lia.
Defined.

(** ** log_messages *)

(** X20. [log_messages] raises [TypeError] on [None]; an exception of the JSON
    dump of a message is raised as it is, before the level is looked at, so
    also by a logger that would print nothing; otherwise one Syntax block
    with the dumps joined by line feeds is printed when the logger's level
    is at least INFO. Nothing is printed when it raises. *)
Theorem log_messages_outcomes (dumps : pyval -> Result string)
    (messages : option (list pyval)) (lg : AgentLogger) :
  match messages with
  | None => log_messages dumps messages lg = (lg, Raise TypeError)
  | Some ms =>
      match mapM dumps ms with
      | Raise e => log_messages dumps messages lg = (lg, Raise e)
      | Ok texts =>
          log_messages dumps messages lg
          = if (1 >? level lg)%Z then (lg, Ok tt)
            else (printed lg (RSyntax (join LF texts) "markdown" (Some "github-dark") true),
                  Ok tt)
      end
  end.
Proof.
  destruct messages as [ms|]; [|reflexivity].
  unfold log_messages, ebind, elift.
  destruct (mapM dumps ms) as [texts|e]; [|reflexivity].
  unfold log, ebind, level_allows, level_value. cbn [LogLevel_value].
  destruct (1 >? level lg)%Z; reflexivity.
Qed.

(** ** The monitor *)

(** One update that finds a duration, both counts and both totals. *)
Lemma update_metrics_complete (format_2f : pyfloat -> string) (step : Step)
    (self : Monitor) (d : pyfloat) (i o ti to : Z) :
  Step_duration step = Ok (Some d) ->
  tracked_model self = {| last_input_token_count := Some (Some i);
                          last_output_token_count := Some (Some o) |} ->
  total_input_token_count self = Some ti ->
  total_output_token_count self = Some to ->
  exists lg,
    update_metrics format_2f step self
    = ({| step_durations := (step_durations self ++ [Some d])%list;
          tracked_model := tracked_model self;
          logger := lg;
          total_input_token_count := Some (ti + i)%Z;
          total_output_token_count := Some (to + o)%Z |}, Ok tt)
    /\ log (RText ("[Step " ++ repr_int (Z.of_nat (length (step_durations self ++ [Some d])%list) - 1)
                   ++ ": Duration " ++ format_2f d ++ " seconds"
                   ++ "| Input tokens: " ++ format_thousands (ti + i)
                   ++ " | Output tokens: " ++ format_thousands (to + o) ++ "]") "dim")
           (LevelOf INFO) None (logger self)
       = (lg, Ok tt).
Proof.
  intros Hd Hm Hi Ho.
  unfold update_metrics, ebind, elift, read, set_step_durations, set_total_input,
    set_total_output, on_logger, eret, attr, add_count, append.
  rewrite Hd. cbn [step_durations tracked_model total_input_token_count
                   total_output_token_count logger].
  rewrite Hm. cbn [last_input_token_count last_output_token_count].
  rewrite Hi, Ho.
  cbn [step_durations tracked_model total_input_token_count
       total_output_token_count logger].
  unfold log, ebind, level_allows, level_value. cbn [LogLevel_value].
  rewrite !str_append_assoc.
  destruct (1 >? level (logger self))%Z; cbn [negb];
    eexists; split; reflexivity.
Qed.

Lemma log_info_effect (r : Renderable) (lg lg' : AgentLogger) :
  log r (LevelOf INFO) None lg = (lg', Ok tt) ->
  level lg' = level lg
  /\ length (console lg')
     = length (console lg) + (if (1 <=? level lg)%Z then 1 else 0).
Proof.
  unfold log, ebind, level_allows, level_value. cbn [LogLevel_value].
  rewrite Z.gtb_ltb.
  destruct (level lg <? 1)%Z eqn:E; cbn [negb]; intros H; injection H as <-.
  - apply Z.ltb_lt in E. destruct (1 <=? level lg)%Z eqn:E'; [apply Z.leb_le in E'; lia|].
    split; [reflexivity | lia].
  - apply Z.ltb_ge in E. destruct (1 <=? level lg)%Z eqn:E'; [|apply Z.leb_gt in E'; lia].
    split; [reflexivity|]. cbn [console]. unfold append. rewrite length_app. reflexivity.
Qed.

Lemma monitor_run_cons (format_2f : pyfloat -> string) (model : TrackedModel)
    (step : Step) (rest : list (TrackedModel * Step)) (self : Monitor) :
  monitor_run format_2f ((model, step) :: rest) self
  = match update_metrics format_2f step (with_tracked_model self model) with
    | (self', Ok _) => monitor_run format_2f rest self'
    | (self', Raise e) => (self', Raise e)
    end.
Proof. reflexivity. Qed.

(** X21. Over a run in which every update finds a duration and both counts, on
    a monitor whose totals exist: the run does not raise, each total ends as
    its start value plus the sum of the counts seen, the durations are
    appended in order, and the logger gets one line per update when its
    level is at least INFO and none otherwise. *)
Theorem monitor_totals_are_sums (format_2f : pyfloat -> string)
    (events : list (TrackedModel * Step)) (self : Monitor) (ti to : Z) :
  total_input_token_count self = Some ti ->
  total_output_token_count self = Some to ->
  Forall complete_event events ->
  snd (monitor_run format_2f events self) = Ok tt
  /\ total_input_token_count (fst (monitor_run format_2f events self))
     = Some (ti + Zsum (map input_count_of events))%Z
  /\ total_output_token_count (fst (monitor_run format_2f events self))
     = Some (to + Zsum (map output_count_of events))%Z
  /\ step_durations (fst (monitor_run format_2f events self))
     = (step_durations self ++ map duration_of events)%list
  /\ level (logger (fst (monitor_run format_2f events self))) = level (logger self)
  /\ length (console (logger (fst (monitor_run format_2f events self))))
     = length (console (logger self))
       + (if (1 <=? level (logger self))%Z then length events else 0).
Proof.
  intros Hi Ho Hall. revert self ti to Hi Ho.
  induction Hall as [|[model step] rest (d & i & o & Hd & Hm) _ IH]; intros self ti to Hi Ho.
  - cbn. rewrite !Z.add_0_r, app_nil_r.
    destruct (1 <=? level (logger self))%Z; repeat split; auto.
  - cbn [fst snd] in Hd, Hm. subst model.
    destruct (update_metrics_complete format_2f step
                (with_tracked_model self (mkTrackedModel (Some (Some i)) (Some (Some o))))
                d i o ti to Hd eq_refl Hi Ho) as (lg & E & Hlog).
    cbn [with_tracked_model step_durations tracked_model logger] in E, Hlog.
    destruct (log_info_effect _ _ _ Hlog) as [Hlev Hlen].
    rewrite monitor_run_cons, E.
    specialize (IH {| step_durations := (step_durations self ++ [Some d])%list;
                      tracked_model := mkTrackedModel (Some (Some i)) (Some (Some o));
                      logger := lg;
                      total_input_token_count := Some (ti + i)%Z;
                      total_output_token_count := Some (to + o)%Z |}
                   (ti + i)%Z (to + o)%Z eq_refl eq_refl).
    cbn [total_input_token_count total_output_token_count step_durations logger] in IH.
    destruct IH as (Hr & Hin & Hout & Hdur & Hlv & Hcon).
    rewrite Hr, Hin, Hout, Hdur, Hlv, Hcon, Hlev, Hlen.
    cbn [map Zsum fold_right].
    change (input_count_of (mkTrackedModel (Some (Some i)) (Some (Some o)), step)) with i.
    change (output_count_of (mkTrackedModel (Some (Some i)) (Some (Some o)), step)) with o.
    assert (Hdur' : duration_of (mkTrackedModel (Some (Some i)) (Some (Some o)), step)
                    = Some d)
      by (unfold duration_of; cbn [snd]; now rewrite Hd).
    rewrite Hdur'.
    fold (Zsum (map input_count_of rest)) (Zsum (map output_count_of rest)).
    repeat split.
    + f_equal. lia.
    + f_equal. lia.
    + now rewrite <- app_assoc.
    + destruct (1 <=? level (logger self))%Z; cbn [length]; lia.
Qed.

Lemma monitor_totals_are_sums_witness :
  snd (monitor_run (fun d => d) sample_events sample_monitor) = Ok tt
  /\ total_input_token_count (fst (monitor_run (fun d => d) sample_events sample_monitor))
     = Some (0 + Zsum (map input_count_of sample_events))%Z
  /\ total_output_token_count (fst (monitor_run (fun d => d) sample_events sample_monitor))
     = Some (0 + Zsum (map output_count_of sample_events))%Z
  /\ step_durations (fst (monitor_run (fun d => d) sample_events sample_monitor))
     = (step_durations sample_monitor ++ map duration_of sample_events)%list
  /\ level (logger (fst (monitor_run (fun d => d) sample_events sample_monitor)))
     = level (logger sample_monitor)
  /\ length (console (logger (fst (monitor_run (fun d => d) sample_events sample_monitor))))
     = length (console (logger sample_monitor))
       + (if (1 <=? level (logger sample_monitor))%Z then length sample_events else 0).
Proof.
  apply (monitor_totals_are_sums (fun d => d) sample_events sample_monitor 0 0).
  - reflexivity.
  - reflexivity.
  - repeat constructor; eexists _, _, _; split; reflexivity.
Defined.

(** X22. A monitor built for a model without [last_input_token_count] has no
    totals: [get_total_token_counts] raises [AttributeError], and so does
    an update once the model shows a count, after the duration has been
    appended and before anything is logged. After [reset] the totals exist
    and are zero. *)
Theorem monitor_without_token_counts (format_2f : pyfloat -> string)
    (model : TrackedModel) (lg : AgentLogger) (step : Step) (d : pyfloat) (i : Z)
    (out : option (option Z)) :
  last_input_token_count model = None ->
  Step_duration step = Ok (Some d) ->
  get_total_token_counts (Monitor_init model lg) = Raise AttributeError
  /\ get_total_token_counts (Monitor_reset (Monitor_init model lg))
     = Ok [("input", PInt 0); ("output", PInt 0)]
  /\ update_metrics format_2f step
       (with_tracked_model (Monitor_init model lg)
          {| last_input_token_count := Some (Some i); last_output_token_count := out |})
     = ({| step_durations := [Some d];
           tracked_model := {| last_input_token_count := Some (Some i);
                               last_output_token_count := out |};
           logger := lg;
           total_input_token_count := None;
           total_output_token_count := None |}, Raise AttributeError).
Proof.
  intros Hm Hd. unfold Monitor_init. rewrite Hm. split; [reflexivity|]. split; [reflexivity|].
  unfold update_metrics, ebind, elift, read, set_step_durations, with_tracked_model.
  rewrite Hd. reflexivity.
Qed.

Lemma monitor_without_token_counts_witness :
  get_total_token_counts
    (Monitor_init (mkTrackedModel None None) (AgentLogger_init 1)) = Raise AttributeError
  /\ get_total_token_counts
       (Monitor_reset (Monitor_init (mkTrackedModel None None) (AgentLogger_init 1)))
     = Ok [("input", PInt 0); ("output", PInt 0)]
  /\ update_metrics (fun d => d) sample_timed_step
       (with_tracked_model (Monitor_init (mkTrackedModel None None) (AgentLogger_init 1))
          {| last_input_token_count := Some (Some 7%Z);
             last_output_token_count := Some (Some 9%Z) |})
     = ({| step_durations := [Some "1.5"];
           tracked_model := {| last_input_token_count := Some (Some 7%Z);
                               last_output_token_count := Some (Some 9%Z) |};
           logger := AgentLogger_init 1;
           total_input_token_count := None;
           total_output_token_count := None |}, Raise AttributeError).
Proof.
  apply (monitor_without_token_counts (fun d => d) (mkTrackedModel None None)
           (AgentLogger_init 1) sample_timed_step "1.5" 7 (Some (Some 9%Z)));
    reflexivity.
Defined.

(** X23. An update with a step that has no [duration] attribute (a task, a
    planning or a system prompt step) raises [AttributeError] and leaves
    the monitor as it was. With a step whose duration is [None] it raises
    [TypeError] when formatting it, after [None] has been appended to the
    durations; totals and logger are untouched. *)
Theorem update_metrics_without_duration (format_2f : pyfloat -> string)
    (step : Step) (self : Monitor) :
  match Step_duration step with
  | Raise e => e = AttributeError /\ update_metrics format_2f step self = (self, Raise e)
  | Ok None =>
      update_metrics format_2f step self
      = ({| step_durations := (step_durations self ++ [None])%list;
            tracked_model := tracked_model self;
            logger := logger self;
            total_input_token_count := total_input_token_count self;
            total_output_token_count := total_output_token_count self |}, Raise TypeError)
  | Ok (Some _) => True
  end.
Proof.
  unfold update_metrics, ebind, elift, read, set_step_durations.
  destruct step as [a|p|t|sp|c]; cbn [Step_duration]; try (split; reflexivity).
  - destruct (duration a); [exact I | reflexivity].
  - destruct (critic_duration c); [exact I | reflexivity].
Qed.

(** ** replay *)

Lemma replay_steps_app (dumps : pyval -> Result string) (detailed : bool)
    (l1 l2 : list Step) (lg : AgentLogger) :
  replay_steps dumps detailed (l1 ++ l2) lg
  = match replay_steps dumps detailed l1 lg with
    | (lg', Ok _) => replay_steps dumps detailed l2 lg'
    | (lg', Raise e) => (lg', Raise e)
    end.
Proof.
  revert lg; induction l1 as [|s r IH]; intros lg.
  - reflexivity.
  - cbn [app replay_steps]. unfold ebind.
    destruct (replay_step dumps detailed s lg) as [lg' [u|e]]; [apply IH | reflexivity].
Qed.

(** X24. [replay] cannot get past a task step: it calls [log_task(step.task,
    "", 2)], the integer 2 has no [value], and the call raises
    [AttributeError] whatever the logger's level. When the replay of the
    steps before it returns (none of them makes a logging call raise: an
    action step printed without a model output does, in [Markdown]), what
    was written for them stays on the console and the steps after the task
    step are never reached. *)
Theorem replay_stops_at_a_task_step (dumps : pyval -> Result string)
    (prompt : SystemPromptStep) (detailed : bool) (before after : list Step)
    (t : TaskStep) (lg lg' : AgentLogger) :
  replay dumps {| system_prompt := prompt; steps := before |} detailed lg = (lg', Ok tt) ->
  replay dumps {| system_prompt := prompt; steps := (before ++ STask t :: after)%list |}
    detailed lg
  = (lg', Raise AttributeError).
Proof.
  unfold replay, ebind. cbn [steps].
  destruct (console_log (RStr "Replaying the agent's steps:") lg) as [lg0 [u|e]];
    [|discriminate].
  rewrite replay_steps_app.
  intros H. rewrite H. reflexivity.
Qed.

Lemma replay_stops_at_a_task_step_witness :
  replay (fun v => Ok (py_repr v))
    {| system_prompt := mkSystemPromptStep "be brief";
       steps := ([sample_timed_step] ++ STask (mkTaskStep "find the bug" None)
                 :: [sample_timed_step])%list |}
    false (AgentLogger_init 2)
  = ({| level := 2;
        console := [ Logged (RStr "Replaying the agent's steps:");
                     Printed (RRule "Step 1");
                     Printed (RPanel (RMarkdown "done") (Some "Agent output:")
                                     None None) ] |},
     Raise AttributeError).
Proof.
  apply (replay_stops_at_a_task_step (fun v => Ok (py_repr v)) (mkSystemPromptStep "be brief")
           false [sample_timed_step] [sample_timed_step] (mkTaskStep "find the bug" None)
           (AgentLogger_init 2)).
  reflexivity.
Defined.

(** X25. A detailed replay of an action step that has no input messages raises
    [TypeError]: the rule of the step is written (when the level allows),
    then [log_messages] iterates [None]; the model output is not written. *)
Theorem detailed_replay_needs_input_messages (dumps : pyval -> Result string)
    (a : ActionStep) (lg : AgentLogger) :
  model_input_messages a = None ->
  replay_step dumps true (SAction a) lg
  = (if (1 >? level lg)%Z then lg
     else printed lg (RRule ("Step " ++ str_of_step_number (step_number a))),
     Raise TypeError).
Proof.
  intros H. unfold replay_step, ebind, log_rule, ebind, level_allows, level_value.
  cbn [LogLevel_value]. rewrite H.
  destruct (1 >? level lg)%Z; reflexivity.
Qed.

Lemma detailed_replay_needs_input_messages_witness :
  replay_step (fun v => Ok (py_repr v)) true sample_timed_step (AgentLogger_init 1)
  = (printed (AgentLogger_init 1) (RRule "Step 1"), Raise TypeError).
Proof.
  apply (detailed_replay_needs_input_messages (fun v => Ok (py_repr v))).
  reflexivity.
Defined.

Lemma replay_step_summary (dumps : pyval -> Result string) (s : Step) (lg : AgentLogger) :
  replays_quietly s ->
  exists events,
    replay_step dumps false s lg
    = ({| level := level lg; console := (console lg ++ events)%list |}, Ok tt)
    /\ length events
       = if (1 <=? level lg)%Z then (if is_replayed s then 2 else 0) else 0.
Proof.
  intros Hs.
  assert (Hq : (1 >? level lg)%Z = negb (1 <=? level lg)%Z).
  { rewrite Z.gtb_ltb. destruct (1 <=? level lg)%Z eqn:E.
    - apply Z.leb_le in E. apply Z.ltb_ge. lia.
    - apply Z.leb_gt in E. apply Z.ltb_lt. lia. }
  destruct s as [a|p|t|sp|c]; cbn [replay_step is_replayed];
    try (exists []; rewrite app_nil_r; destruct lg;
         destruct (1 <=? _)%Z; split; reflexivity).
  - cbn [replays_quietly] in Hs.
    destruct (model_output a) as [output|]; [|contradiction].
    unfold ebind, log_rule, log_markdown, ebind, elift, Markdown, level_allows,
      level_value, eret, console_print, append.
    cbn [LogLevel_value level console].
    destruct (1 <=? level lg)%Z; cbn [negb] in Hq;
      rewrite Hq; cbn [negb level console]; rewrite ?Hq; cbn [negb level console].
    + eexists [_; _]. rewrite <- app_assoc. split; reflexivity.
    + exists []. rewrite app_nil_r. destruct lg; split; reflexivity.
  - unfold ebind, log_rule, log_markdown, ebind, elift, Markdown, level_allows,
      level_value, eret, console_print, append.
    cbn [LogLevel_value level console].
    destruct (1 <=? level lg)%Z; cbn [negb] in Hq;
      rewrite Hq; cbn [negb level console]; rewrite ?Hq; cbn [negb level console].
    + eexists [_; _]. rewrite <- app_assoc. split; reflexivity.
    + exists []. rewrite app_nil_r. destruct lg; split; reflexivity.
  - destruct Hs.
Qed.

Lemma replay_steps_summary (dumps : pyval -> Result string) (l : list Step)
    (lg : AgentLogger) :
  Forall replays_quietly l ->
  exists events,
    replay_steps dumps false l lg
    = ({| level := level lg; console := (console lg ++ events)%list |}, Ok tt)
    /\ length events
       = if (1 <=? level lg)%Z then 2 * length (filter is_replayed l) else 0.
Proof.
  intros H. revert lg. induction H as [|s r Hs _ IH]; intros lg.
  - exists []. rewrite app_nil_r. destruct lg. destruct (1 <=? _)%Z; split; reflexivity.
  - destruct (replay_step_summary dumps s lg Hs) as (ev1 & E1 & L1).
    destruct (IH {| level := level lg; console := (console lg ++ ev1)%list |})
      as (ev2 & E2 & L2).
    cbn [level console] in E2, L2.
    exists (ev1 ++ ev2)%list. split.
    + cbn [replay_steps]. unfold ebind. rewrite E1, E2. now rewrite app_assoc.
    + rewrite length_app, L1, L2. cbn [filter].
      destruct (1 <=? level lg)%Z; [|reflexivity].
      destruct (is_replayed s); cbn [length]; lia.
Qed.

(** X26. A summary replay ([detailed=False]) of a memory without task steps,
    whose action steps all have a model output, does not raise. It logs the
    heading whatever the logger's level, then prints two renderables (a rule
    and the output panel) per action or planning step when the level is at
    least INFO and nothing otherwise; system prompt and critic steps leave
    no trace. *)
Theorem summary_replay_prints_two_per_step (dumps : pyval -> Result string)
    (m : AgentMemory) (lg : AgentLogger) :
  Forall replays_quietly (steps m) ->
  exists events,
    replay dumps m false lg
    = ({| level := level lg;
          console := (console lg ++ Logged (RStr "Replaying the agent's steps:") :: events)%list |},
       Ok tt)
    /\ length events
       = if (1 <=? level lg)%Z then 2 * length (filter is_replayed (steps m)) else 0.
Proof.
  intros H.
  destruct (replay_steps_summary dumps (steps m)
              {| level := level lg;
                 console := append (console lg) (Logged (RStr "Replaying the agent's steps:")) |}
              H) as (events & E & L).
  cbn [level console] in E, L.
  exists events. split; [|exact L].
  unfold replay, ebind, console_log. rewrite E. unfold append.
  now rewrite <- app_assoc.
Qed.

Lemma summary_replay_prints_two_per_step_witness :
  exists events,
    replay (fun v => Ok (py_repr v))
      {| system_prompt := mkSystemPromptStep "be brief";
         steps := [SSystemPrompt (mkSystemPromptStep "be brief"); sample_timed_step;
                   SCritic sample_accept] |}
      false (AgentLogger_init 1)
    = ({| level := level (AgentLogger_init 1);
          console := (console (AgentLogger_init 1)
                      ++ Logged (RStr "Replaying the agent's steps:") :: events)%list |},
       Ok tt)
    /\ length events
       = if (1 <=? level (AgentLogger_init 1))%Z
         then 2 * length (filter is_replayed
                            [SSystemPrompt (mkSystemPromptStep "be brief"); sample_timed_step;
                             SCritic sample_accept])
         else 0.
Proof.
  apply (summary_replay_prints_two_per_step (fun v => Ok (py_repr v))
           {| system_prompt := mkSystemPromptStep "be brief";
              steps := [SSystemPrompt (mkSystemPromptStep "be brief"); sample_timed_step;
                        SCritic sample_accept] |}
           (AgentLogger_init 1)).
  repeat constructor. discriminate.
Defined.
